(** * ASAPValidator: the duty scheduler of beaconrunner

    Shallow embedding of [beaconrunner/validators/ASAPValidator.py].  The
    three methods [attest], [sync_committees] and [propose] are written in a
    small state-and-exception monad over the validator object ([self]): the
    guards read [self.data] and [self.store], Python exceptions
    ([ZeroDivisionError] of [%], [IndexError] of list subscription, a failure
    of a producer) propagate, and the methods themselves contain no assignment: whatever
    happens to the validator during a call is the doing of the producer the
    method ends with. *)

From Stdlib Require Import ZArith List Bool Lia Permutation.
Import ListNotations.
Open Scope Z_scope.

(** ** Python values and primitives *)

(** The exceptions that can leave one of the three methods. *)
Inductive exn : Type :=
| ZeroDivisionError
| IndexError
| ProducerFailure.

(** What a call does: it returns a value or raises. *)
Inductive outcome (A : Type) : Type :=
| Return (a : A)
| Raise (e : exn).
Arguments Return {A} a.
Arguments Raise {A} e.

(** [a % b] on Python integers: floor remainder, [ZeroDivisionError] when
    [b] is zero. *)
Definition py_mod (a b : Z) : outcome Z :=
  if b =? 0 then Raise ZeroDivisionError else Return (a mod b).

(** [l[i]] on a Python list: a negative index counts from the end, an index
    outside the list raises [IndexError]. *)
Definition py_getitem {A : Type} (l : list A) (i : Z) : outcome A :=
  let n := Z.of_nat (length l) in
  let j := if i <? 0 then i + n else i in
  if (0 <=? j) && (j <? n)
  then match nth_error l (Z.to_nat j) with
       | Some x => Return x
       | None => Raise IndexError
       end
  else Raise IndexError.

(** [o == z] where [o] is a slot or Python's [None]. *)
Definition py_eq (o : option Z) (z : Z) : bool :=
  match o with
  | Some x => x =? z
  | None => false
  end.

(** ** The validator object *)

(** [self.data]: the fields the three methods read. *)
Record ValidatorData : Type := mkData {
  slot : Z;
  current_attest_slot : option Z;
  current_proposer_duties : list bool;
  current_sync_committee : list Z;
  received_block : bool;
  last_slot_attested : option Z;
  last_slot_proposed : option Z;
  last_slot_sync_committee : option Z
}.

(** [self.store]: the two clock readings. *)
Record Store : Type := mkStore {
  time : Z;
  genesis_time : Z
}.

Record BRValidator : Type := mkValidator {
  data : ValidatorData;
  store : Store
}.

(** ** The monad of a method body *)

Definition M (A : Type) : Type := BRValidator -> outcome A * BRValidator.

Definition ret {A : Type} (a : A) : M A :=
  fun self => (Return a, self).

Definition raise {A : Type} (e : exn) : M A :=
  fun self => (Raise e, self).

Definition lift {A : Type} (o : outcome A) : M A :=
  fun self => (o, self).

Definition get : M BRValidator :=
  fun self => (Return self, self).

Definition bind {A B : Type} (m : M A) (f : A -> M B) : M B :=
  fun self =>
    match m self with
    | (Return a, self') => f a self'
    | (Raise e, self') => (Raise e, self')
    end.

Declare Scope py_scope.
Delimit Scope py_scope with py.
Notation "x <- m ;; k" := (bind m (fun x => k))
  (at level 61, m at next level, right associativity) : py_scope.
Open Scope py_scope.

(** ** The three methods of [ASAPValidator] *)

Section ASAPValidator.

Variables Attestation SyncCommitteeBundle SignedBeaconBlock KnownItems : Type.

  (** [config.SECONDS_PER_SLOT] and [SLOTS_PER_EPOCH] of [..specs]. *)
Variable SECONDS_PER_SLOT : Z.
Variable SLOTS_PER_EPOCH : Z.

  (** The producers of [..validatorlib]; each receives the validator object
      and the known items. *)
Variable honest_attest : KnownItems -> M Attestation.
Variable honest_sync_committee : KnownItems -> M (list SyncCommitteeBundle).
Variable honest_propose : KnownItems -> M SignedBeaconBlock.

Definition attest (known_items : KnownItems) : M (option Attestation) :=
    self <- get ;;
    (* Not the moment to attest *)
    if negb (py_eq (current_attest_slot (data self)) (slot (data self)))
    then ret None
    else
      time_in_slot <-
        lift (py_mod (time (store self) - genesis_time (store self))
                     SECONDS_PER_SLOT) ;;
      (* Too early in the slot / didn't receive block *)
      if negb (received_block (data self)) && (time_in_slot <? 4)
      then ret None
      else
        (* Already attested for this slot *)
        if py_eq (last_slot_attested (data self)) (slot (data self))
        then ret None
        else
          (* honest attest *)
          a <- honest_attest known_items ;;
          ret (Some a).

Definition sync_committees (known_items : KnownItems)
    : M (option (list SyncCommitteeBundle)) :=
    self <- get ;;
    (* Not the moment to attest *)
    if (length (current_sync_committee (data self)) =? 0)%nat
    then ret None
    else
      time_in_slot <-
        lift (py_mod (time (store self) - genesis_time (store self))
                     SECONDS_PER_SLOT) ;;
      (* Too early in the slot / didn't receive block *)
      if negb (received_block (data self)) && (time_in_slot <? 4)
      then ret None
      else
        (* Already attested for this slot *)
        if py_eq (last_slot_sync_committee (data self)) (slot (data self))
        then ret None
        else
          (* honest sync committee *)
          bundles <- honest_sync_committee known_items ;;
          ret (Some bundles).

Definition propose (known_items : KnownItems) : M (option SignedBeaconBlock) :=
    self <- get ;;
    index <- lift (py_mod (slot (data self)) SLOTS_PER_EPOCH) ;;
    duty <- lift (py_getitem (current_proposer_duties (data self)) index) ;;
    (* Not supposed to propose for current slot *)
    if negb duty
    then ret None
    else
      (* Already proposed for this slot *)
      if py_eq (last_slot_proposed (data self)) (slot (data self))
      then ret None
      else
        (* honest propose *)
        b <- honest_propose known_items ;;
        ret (Some b).

End ASAPValidator.

Arguments attest {Attestation KnownItems} SECONDS_PER_SLOT honest_attest
  known_items.
Arguments sync_committees {SyncCommitteeBundle KnownItems} SECONDS_PER_SLOT
  honest_sync_committee known_items.
Arguments propose {SignedBeaconBlock KnownItems} SLOTS_PER_EPOCH honest_propose
  known_items.

(** ** Field updates *)

Definition set_last_slot_attested (v : BRValidator) (s : option Z) : BRValidator :=
  let d := data v in
  mkValidator
    (mkData (slot d) (current_attest_slot d) (current_proposer_duties d)
            (current_sync_committee d) (received_block d)
            s (last_slot_proposed d) (last_slot_sync_committee d))
    (store v).

Definition set_last_slot_proposed (v : BRValidator) (s : option Z) : BRValidator :=
  let d := data v in
  mkValidator
    (mkData (slot d) (current_attest_slot d) (current_proposer_duties d)
            (current_sync_committee d) (received_block d)
            (last_slot_attested d) s (last_slot_sync_committee d))
    (store v).

Definition set_last_slot_sync_committee (v : BRValidator) (s : option Z)
  : BRValidator :=
  let d := data v in
  mkValidator
    (mkData (slot d) (current_attest_slot d) (current_proposer_duties d)
            (current_sync_committee d) (received_block d)
            (last_slot_attested d) (last_slot_proposed d) s)
    (store v).

(** The validator with another block flag and other clock readings: the
    fields [propose] has no business with. *)
Definition set_clock (v : BRValidator) (rb : bool) (t g : Z) : BRValidator :=
  let d := data v in
  mkValidator
    (mkData (slot d) (current_attest_slot d) (current_proposer_duties d)
            (current_sync_committee d) rb
            (last_slot_attested d) (last_slot_proposed d)
            (last_slot_sync_committee d))
    (mkStore t g).

(** What the driver may renew between two calls inside one slot: the
    attesting slot, the committee membership, the block flag and the clock
    come from [w]; the slot, the proposer table of the epoch and the three
    slashing-protection fields stay those of [v]. *)
Definition refresh (v w : BRValidator) : BRValidator :=
  let d := data v in
  let d' := data w in
  mkValidator
    (mkData (slot d) (current_attest_slot d') (current_proposer_duties d)
            (current_sync_committee d') (received_block d')
            (last_slot_attested d) (last_slot_proposed d)
            (last_slot_sync_committee d))
    (store w).

(** The subscript [propose] evaluates before anything else. *)
Definition duty_lookup (SLOTS_PER_EPOCH : Z) (d : ValidatorData) : outcome bool :=
  match py_mod (slot d) SLOTS_PER_EPOCH with
  | Return index => py_getitem (current_proposer_duties d) index
  | Raise e => Raise e
  end.

(** The remainder [attest] and [sync_committees] compare with the cutoff. *)
Definition time_in_slot (SECONDS_PER_SLOT : Z) (s : Store) : outcome Z :=
  py_mod (time s - genesis_time s) SECONDS_PER_SLOT.

(** [f] on every element, [None] as soon as one element has no image. *)
Fixpoint traverse {A B : Type} (f : A -> option B) (l : list A)
  : option (list B) :=
  match l with
  | [] => Some []
  | x :: l' =>
      match f x with
      | None => None
      | Some y =>
          match traverse f l' with
          | None => None
          | Some ys => Some (y :: ys)
          end
      end
  end.

(** ** The producers, from the specification *)

Module Producers.
Section Producers.

Variables Attestation SyncCommitteeBundle SignedBeaconBlock KnownItems : Type.

  (** The content of an artifact is outside the scheduler: a function of the
      validator and the known items that yields the artifact, or nothing when
      it cannot be built. *)
Variable produce_attestation : BRValidator -> KnownItems -> option Attestation.
Variable produce_sync_bundle :
    BRValidator -> KnownItems -> Z -> option SyncCommitteeBundle.
Variable produce_block : BRValidator -> KnownItems -> option SignedBeaconBlock.

  (** Modelled from the spec: [honest_attest] of [beaconrunner/validatorlib.py],
      which is not among the sources.  An Artifact Producer, "given validator
      state and externally-known items", synthesizes "the actual signed
      artifact content", "returning a fully-formed signed artifact or
      failing"; the duty state is "mutated only by the Duty Scheduler", so
      the producer reads the validator and writes nothing. *)
Definition honest_attest (known_items : KnownItems) : M Attestation :=
    self <- get ;;
    match produce_attestation self known_items with
    | None => raise ProducerFailure
    | Some a => ret a
    end.

  (** Modelled from the spec: [honest_sync_committee] of
      [beaconrunner/validatorlib.py], which is not among the sources.  It
      "produces a sequence of bundles, one per (committee index, subcommittee
      index) the validator is assigned to", or fails; like every producer it
      builds content and writes nothing. *)
Definition honest_sync_committee (known_items : KnownItems)
    : M (list SyncCommitteeBundle) :=
    self <- get ;;
    match traverse (produce_sync_bundle self known_items)
                   (current_sync_committee (data self)) with
    | None => raise ProducerFailure
    | Some bundles => ret bundles
    end.

  (** Modelled from the spec: [honest_propose] of
      [beaconrunner/validatorlib.py], which is not among the sources: it
      returns "the produced block" or fails, and writes nothing. *)
Definition honest_propose (known_items : KnownItems) : M SignedBeaconBlock :=
    self <- get ;;
    match produce_block self known_items with
    | None => raise ProducerFailure
    | Some b => ret b
    end.

End Producers.
End Producers.

Arguments Producers.honest_attest {Attestation KnownItems} produce_attestation
  known_items.
Arguments Producers.honest_sync_committee {SyncCommitteeBundle KnownItems}
  produce_sync_bundle known_items.
Arguments Producers.honest_propose {SignedBeaconBlock KnownItems} produce_block
  known_items.

(** ** The driver: calls and ticks inside one slot *)

(** The three entry points of the scheduler. *)
Inductive entry : Type := Attest | SyncCommittees | Propose.

Definition entry_eqb (e1 e2 : entry) : bool :=
  match e1, e2 with
  | Attest, Attest | SyncCommittees, SyncCommittees | Propose, Propose => true
  | _, _ => false
  end.

(** What an entry point can hand back. *)
Inductive artifact (Attestation SyncCommitteeBundle SignedBeaconBlock : Type)
  : Type :=
| AnAttestation (a : Attestation)
| SomeBundles (l : list SyncCommitteeBundle)
| ABlock (b : SignedBeaconBlock).
Arguments AnAttestation {Attestation SyncCommitteeBundle SignedBeaconBlock} a.
Arguments SomeBundles {Attestation SyncCommitteeBundle SignedBeaconBlock} l.
Arguments ABlock {Attestation SyncCommitteeBundle SignedBeaconBlock} b.

Definition tag {A B : Type} (f : A -> B) (m : M (option A)) : M (option B) :=
  r <- m ;; ret (option_map f r).

(** The slashing-protection field of an entry point, and its update. *)
Definition last_slot_of (e : entry) (v : BRValidator) : option Z :=
  match e with
  | Attest => last_slot_attested (data v)
  | SyncCommittees => last_slot_sync_committee (data v)
  | Propose => last_slot_proposed (data v)
  end.

Definition mark (e : entry) (v : BRValidator) (s : option Z) : BRValidator :=
  match e with
  | Attest => set_last_slot_attested v s
  | SyncCommittees => set_last_slot_sync_committee v s
  | Propose => set_last_slot_proposed v s
  end.

Section Driver.

Variables Attestation SyncCommitteeBundle SignedBeaconBlock KnownItems : Type.
Variable SECONDS_PER_SLOT : Z.
Variable SLOTS_PER_EPOCH : Z.
Variable produce_attestation : BRValidator -> KnownItems -> option Attestation.
Variable produce_sync_bundle :
    BRValidator -> KnownItems -> Z -> option SyncCommitteeBundle.
Variable produce_block : BRValidator -> KnownItems -> option SignedBeaconBlock.

Let Artifact := artifact Attestation SyncCommitteeBundle SignedBeaconBlock.

  (** One call of an entry point of a validator whose producers are the
      ones of [Producers]. *)
Definition call (e : entry) (known_items : KnownItems) : M (option Artifact) :=
    match e with
    | Attest =>
        tag AnAttestation
            (attest SECONDS_PER_SLOT
                    (Producers.honest_attest produce_attestation) known_items)
    | SyncCommittees =>
        tag SomeBundles
            (sync_committees SECONDS_PER_SLOT
                    (Producers.honest_sync_committee produce_sync_bundle)
                    known_items)
    | Propose =>
        tag ABlock
            (propose SLOTS_PER_EPOCH
                    (Producers.honest_propose produce_block) known_items)
    end.

  (** What happens to a validator during one slot: an entry point is called
      with the items known at that moment, or the driver renews its view. *)
Inductive event : Type :=
  | Call (e : entry) (known_items : KnownItems)
  | Tick (w : BRValidator).

  (** The results of the calls of a run, in order, and the validator at its
      end.  An exception ends the call that raised it, not the run. *)
Fixpoint run (evs : list event) (v : BRValidator)
    : list (entry * outcome (option Artifact)) * BRValidator :=
    match evs with
    | [] => ([], v)
    | Tick w :: evs' => run evs' (refresh v w)
    | Call e known_items :: evs' =>
        let (o, v') := call e known_items v in
        let (log, v'') := run evs' v' in
        ((e, o) :: log, v'')
    end.

  (** The driver that keeps the slashing-protection memory: after a call
      that handed back an artifact it writes the slot into the field of that
      duty; after any other call it writes nothing. *)
Definition record (e : entry) (o : outcome (option Artifact)) (v : BRValidator)
    : BRValidator :=
    match o with
    | Return (Some _) => mark e v (Some (slot (data v)))
    | _ => v
    end.

  (** A run under that driver. *)
Fixpoint run_recorded (evs : list event) (v : BRValidator)
    : list (entry * outcome (option Artifact)) * BRValidator :=
    match evs with
    | [] => ([], v)
    | Tick w :: evs' => run_recorded evs' (refresh v w)
    | Call e known_items :: evs' =>
        let (o, v') := call e known_items v in
        let (log, v'') := run_recorded evs' (record e o v') in
        ((e, o) :: log, v'')
    end.

  (** The three entry points called once each, in the given order. *)
Definition once_each (known : entry -> KnownItems) (order : list entry)
    : BRValidator -> list (entry * outcome (option Artifact)) * BRValidator :=
    run (map (fun e => Call e (known e)) order).

  (** The result of entry point [e] in a log. *)
Fixpoint result_of (e : entry) (log : list (entry * outcome (option Artifact)))
    : option (outcome (option Artifact)) :=
    match log with
    | [] => None
    | (e', o) :: log' => if entry_eqb e e' then Some o else result_of e log'
    end.

End Driver.

Arguments call {Attestation SyncCommitteeBundle SignedBeaconBlock KnownItems}
  SECONDS_PER_SLOT SLOTS_PER_EPOCH produce_attestation produce_sync_bundle
  produce_block e known_items.
Arguments Call {KnownItems} e known_items.
Arguments Tick {KnownItems} w.
Arguments run {Attestation SyncCommitteeBundle SignedBeaconBlock KnownItems}
  SECONDS_PER_SLOT SLOTS_PER_EPOCH produce_attestation produce_sync_bundle
  produce_block evs v.
Arguments record {Attestation SyncCommitteeBundle SignedBeaconBlock} e o v.
Arguments run_recorded
  {Attestation SyncCommitteeBundle SignedBeaconBlock KnownItems}
  SECONDS_PER_SLOT SLOTS_PER_EPOCH produce_attestation produce_sync_bundle
  produce_block evs v.
Arguments once_each {Attestation SyncCommitteeBundle SignedBeaconBlock KnownItems}
  SECONDS_PER_SLOT SLOTS_PER_EPOCH produce_attestation produce_sync_bundle
  produce_block known order.
Arguments result_of {Attestation SyncCommitteeBundle SignedBeaconBlock} e log.

(** ** A concrete validator *)

(** Artifacts are numbers here: an attestation or a block is the slot it is
    for, a bundle is the committee index it is for.  The known items are one
    flag: whether the producer has what it needs. *)
Definition sample_attestation (v : BRValidator) (k : bool) : option Z :=
  if k then Some (slot (data v)) else None.

Definition sample_sync_bundle (v : BRValidator) (k : bool) (i : Z) : option Z :=
  if k then Some i else None.

Definition sample_block (v : BRValidator) (k : bool) : option Z :=
  if k then Some (slot (data v)) else None.

(** The validator of the specification's example: slot 5 is its attesting
    slot, it sits in two sync subcommittees and proposes in the slot of
    index 1 of a four-slot epoch; [rb] is the block flag, [t] the clock and
    [last] the content of the three slashing-protection fields. *)
Definition sample_validator (rb : bool) (t : Z) (last : option Z) : BRValidator :=
  mkValidator
    (mkData 5 (Some 5) [false; true; false; false] [3; 7] rb last last last)
    (mkStore t 0).

(** What a method hands back when it ends with [return producer(self,
    known_items)]: the producer's artifact, or its exception. *)
Definition delegate {A : Type} (m : M A) : M (option A) :=
  a <- m ;; ret (Some a).

(** The decision of [attest] as the specification words it, with the cutoff
    at a third of the slot: to be compared with [attest]. *)
Definition attest_as_specified {Attestation KnownItems : Type}
  (SECONDS_PER_SLOT : Z) (honest_attest : KnownItems -> M Attestation)
  (known_items : KnownItems) (v : BRValidator)
  : outcome (option Attestation) * BRValidator :=
  let d := data v in
  let t := (time (store v) - genesis_time (store v)) mod SECONDS_PER_SLOT in
  if negb (py_eq (current_attest_slot d) (slot d)) then (Return None, v)
  else if negb (received_block d) && (t <? SECONDS_PER_SLOT / 3)
       then (Return None, v)
       else if py_eq (last_slot_attested d) (slot d) then (Return None, v)
            else delegate (honest_attest known_items) v.

(** The decision of [sync_committees] as the specification words it. *)
Definition sync_committees_as_specified {SyncCommitteeBundle KnownItems : Type}
  (SECONDS_PER_SLOT : Z)
  (honest_sync_committee : KnownItems -> M (list SyncCommitteeBundle))
  (known_items : KnownItems) (v : BRValidator)
  : outcome (option (list SyncCommitteeBundle)) * BRValidator :=
  let d := data v in
  let t := (time (store v) - genesis_time (store v)) mod SECONDS_PER_SLOT in
  if (length (current_sync_committee d) =? 0)%nat then (Return None, v)
  else if negb (received_block d) && (t <? SECONDS_PER_SLOT / 3)
       then (Return None, v)
       else if py_eq (last_slot_sync_committee d) (slot d)
            then (Return None, v)
            else delegate (honest_sync_committee known_items) v.

(** The first two guards of [attest] let the call through: this is the
    attesting slot, the clock can be read, and a block has arrived or the
    cutoff has passed. *)
Definition attest_due (SECONDS_PER_SLOT : Z) (v : BRValidator) : bool :=
  py_eq (current_attest_slot (data v)) (slot (data v)) &&
  match time_in_slot SECONDS_PER_SLOT (store v) with
  | Return t => negb (negb (received_block (data v)) && (t <? 4))
  | Raise _ => false
  end.

(** The same for [sync_committees], with membership as first guard. *)
Definition sync_committees_due (SECONDS_PER_SLOT : Z) (v : BRValidator) : bool :=
  negb (length (current_sync_committee (data v)) =? 0)%nat &&
  match time_in_slot SECONDS_PER_SLOT (store v) with
  | Return t => negb (negb (received_block (data v)) && (t <? 4))
  | Raise _ => false
  end.

(** The first guard of [propose] lets the call through: the duty entry of
    the slot exists and is set. *)
Definition propose_due (SLOTS_PER_EPOCH : Z) (v : BRValidator) : bool :=
  match duty_lookup SLOTS_PER_EPOCH (data v) with
  | Return duty => duty
  | Raise _ => false
  end.

(** A validator whose proposer table has one entry only, in slot [s]; it
    has no other duty. *)
Definition short_duty_validator (s : Z) : BRValidator :=
  mkValidator
    (mkData s None [true] [] false None None None)
    (mkStore 0 0).

(** The duty of entry point [e] is discharged for the current slot, in a
    validator where the call could be made at all (the clock can be read,
    the duty entry exists). *)
Definition acted (SECONDS_PER_SLOT SLOTS_PER_EPOCH : Z) (e : entry)
  (v : BRValidator) : Prop :=
  last_slot_of e v = Some (slot (data v)) /\
  match e with
  | Attest | SyncCommittees => SECONDS_PER_SLOT <> 0
  | Propose => exists duty, duty_lookup SLOTS_PER_EPOCH (data v) = Return duty
  end.

(** The validator in another slot, everything else in place. *)
Definition set_slot (v : BRValidator) (s : Z) : BRValidator :=
  let d := data v in
  mkValidator
    (mkData s (current_attest_slot d) (current_proposer_duties d)
            (current_sync_committee d) (received_block d)
            (last_slot_attested d) (last_slot_proposed d)
            (last_slot_sync_committee d))
    (store v).

(** The guards of [attest] end the call with [None]: one of the three
    fires, and the clock could be read if it was needed. *)
Definition attest_declines (SECONDS_PER_SLOT : Z) (v : BRValidator) : bool :=
  negb (py_eq (current_attest_slot (data v)) (slot (data v))) ||
  match time_in_slot SECONDS_PER_SLOT (store v) with
  | Return t =>
      (negb (received_block (data v)) && (t <? 4)) ||
      py_eq (last_slot_attested (data v)) (slot (data v))
  | Raise _ => false
  end.

Definition sync_committees_declines (SECONDS_PER_SLOT : Z) (v : BRValidator)
  : bool :=
  (length (current_sync_committee (data v)) =? 0)%nat ||
  match time_in_slot SECONDS_PER_SLOT (store v) with
  | Return t =>
      (negb (received_block (data v)) && (t <? 4)) ||
      py_eq (last_slot_sync_committee (data v)) (slot (data v))
  | Raise _ => false
  end.

Definition propose_declines (SLOTS_PER_EPOCH : Z) (v : BRValidator) : bool :=
  match duty_lookup SLOTS_PER_EPOCH (data v) with
  | Return duty =>
      negb duty || py_eq (last_slot_proposed (data v)) (slot (data v))
  | Raise _ => false
  end.

(** * Properties *)

(** ** Python primitives *)

Lemma py_eq_true (o : option Z) (z : Z) : py_eq o z = true <-> o = Some z.
Proof.
  destruct o as [x|]; simpl.
  - rewrite Z.eqb_eq. split; [intros -> | intros [= ->]]; reflexivity.
  - split; discriminate.
Qed.

Lemma py_eq_false (o : option Z) (z : Z) : py_eq o z = false <-> o <> Some z.
Proof.
  rewrite <- py_eq_true. destruct (py_eq o z); split; congruence.
Qed.

Lemma py_mod_nonzero (a b : Z) : b <> 0 -> py_mod a b = Return (a mod b).
Proof.
  intros Hb. unfold py_mod. destruct (Z.eqb_spec b 0); [contradiction|reflexivity].
Qed.

Lemma py_mod_zero (a : Z) : py_mod a 0 = Raise ZeroDivisionError.
Proof. reflexivity. Qed.

Lemma py_mod_returns (a b r : Z) : py_mod a b = Return r -> b <> 0 /\ r = a mod b.
Proof.
  unfold py_mod. destruct (Z.eqb_spec b 0); [discriminate|].
  intros [= <-]. split; [assumption|reflexivity].
Qed.

Lemma py_getitem_in_range {A : Type} (l : list A) (i : Z) :
  0 <= i < Z.of_nat (length l) -> exists x, py_getitem l i = Return x.
Proof.
  intros Hi. unfold py_getitem.
  destruct (Z.ltb_spec i 0); [lia|].
  destruct (Z.leb_spec 0 i); [|lia].
  destruct (Z.ltb_spec i (Z.of_nat (length l))); [|lia]. simpl.
  destruct (nth_error l (Z.to_nat i)) as [x|] eqn:E; [eauto|].
  apply nth_error_None in E. lia.
Qed.

Lemma py_getitem_past_end {A : Type} (l : list A) (i : Z) :
  Z.of_nat (length l) <= i -> py_getitem l i = Raise IndexError.
Proof.
  intros Hi. unfold py_getitem.
  destruct (Z.ltb_spec i 0); [lia|].
  destruct (Z.ltb_spec i (Z.of_nat (length l))); [lia|].
  rewrite andb_false_r. reflexivity.
Qed.

Lemma py_getitem_returns {A : Type} (l : list A) (i : Z) (x : A) :
  0 <= i -> py_getitem l i = Return x -> i < Z.of_nat (length l).
Proof.
  intros Hi. unfold py_getitem.
  destruct (Z.ltb_spec i 0); [lia|].
  destruct (Z.ltb_spec i (Z.of_nat (length l))); [lia|].
  rewrite andb_false_r. discriminate.
Qed.

(** ** The guards, for any producer *)

Section Guards.

Context {Attestation SyncCommitteeBundle SignedBeaconBlock KnownItems : Type}.
Variable SECONDS_PER_SLOT : Z.
Variable SLOTS_PER_EPOCH : Z.
Variable honest_attest : KnownItems -> M Attestation.
Variable honest_sync_committee : KnownItems -> M (list SyncCommitteeBundle).
Variable honest_propose : KnownItems -> M SignedBeaconBlock.

(** [attest] as a cascade over the remainder the clock gives. *)
Lemma attest_unfold (k : KnownItems) (v : BRValidator) :
  attest SECONDS_PER_SLOT honest_attest k v =
  if negb (py_eq (current_attest_slot (data v)) (slot (data v)))
  then (Return None, v)
  else match time_in_slot SECONDS_PER_SLOT (store v) with
       | Raise e => (Raise e, v)
       | Return t =>
           if negb (received_block (data v)) && (t <? 4)
           then (Return None, v)
           else if py_eq (last_slot_attested (data v)) (slot (data v))
                then (Return None, v)
                else delegate (honest_attest k) v
       end.
Proof.
  unfold attest, time_in_slot, bind, get, lift, ret.
  destruct (negb (py_eq _ _)); [reflexivity|].
  destruct (py_mod _ _) as [t|e]; [|reflexivity].
  destruct (negb _ && _); [reflexivity|].
  destruct (py_eq _ _); reflexivity.
Qed.

Lemma sync_committees_unfold (k : KnownItems) (v : BRValidator) :
  sync_committees SECONDS_PER_SLOT honest_sync_committee k v =
  if (length (current_sync_committee (data v)) =? 0)%nat
  then (Return None, v)
  else match time_in_slot SECONDS_PER_SLOT (store v) with
       | Raise e => (Raise e, v)
       | Return t =>
           if negb (received_block (data v)) && (t <? 4)
           then (Return None, v)
           else if py_eq (last_slot_sync_committee (data v)) (slot (data v))
                then (Return None, v)
                else delegate (honest_sync_committee k) v
       end.
Proof.
  unfold sync_committees, time_in_slot, bind, get, lift, ret.
  destruct (_ =? _)%nat; [reflexivity|].
  destruct (py_mod _ _) as [t|e]; [|reflexivity].
  destruct (negb _ && _); [reflexivity|].
  destruct (py_eq _ _); reflexivity.
Qed.

Lemma propose_unfold (k : KnownItems) (v : BRValidator) :
  propose SLOTS_PER_EPOCH honest_propose k v =
  match duty_lookup SLOTS_PER_EPOCH (data v) with
  | Raise e => (Raise e, v)
  | Return duty =>
      if negb duty
      then (Return None, v)
      else if py_eq (last_slot_proposed (data v)) (slot (data v))
           then (Return None, v)
           else delegate (honest_propose k) v
  end.
Proof.
  unfold propose, duty_lookup, bind, get, lift, ret.
  destruct (py_mod _ _) as [i|e]; [|reflexivity].
  destruct (py_getitem _ _) as [duty|e]; [|reflexivity].
  destruct (negb duty); [reflexivity|].
  destruct (py_eq _ _); reflexivity.
Qed.

(** A delegated call never hands back [None]. *)
Lemma delegate_not_none {A : Type} (m : M A) (v : BRValidator) :
  fst (delegate m v) <> Return None.
Proof.
  unfold delegate, bind, ret. destruct (m v) as [[a|e] v']; simpl; discriminate.
Qed.

Lemma delegate_returns {A : Type} (m : M A) (v v' : BRValidator) (a : A) :
  m v = (Return a, v') -> delegate m v = (Return (Some a), v').
Proof. intros H. unfold delegate, bind, ret. rewrite H. reflexivity. Qed.

Lemma delegate_raises {A : Type} (m : M A) (v v' : BRValidator) (e : exn) :
  m v = (Raise e, v') -> delegate m v = (Raise e, v').
Proof. intros H. unfold delegate, bind, ret. rewrite H. reflexivity. Qed.

(** When the first two guards let the call through, the slashing guard
    decides. *)
Lemma attest_when_due (k : KnownItems) (v : BRValidator) :
  attest_due SECONDS_PER_SLOT v = true ->
  attest SECONDS_PER_SLOT honest_attest k v =
  if py_eq (last_slot_attested (data v)) (slot (data v))
  then (Return None, v)
  else delegate (honest_attest k) v.
Proof.
  unfold attest_due. intros H. rewrite attest_unfold.
  apply andb_true_iff in H as [H1 H2]. rewrite H1. simpl.
  destruct (time_in_slot _ _) as [t|e]; [|discriminate].
  apply negb_true_iff in H2. rewrite H2. reflexivity.
Qed.

Lemma sync_committees_when_due (k : KnownItems) (v : BRValidator) :
  sync_committees_due SECONDS_PER_SLOT v = true ->
  sync_committees SECONDS_PER_SLOT honest_sync_committee k v =
  if py_eq (last_slot_sync_committee (data v)) (slot (data v))
  then (Return None, v)
  else delegate (honest_sync_committee k) v.
Proof.
  unfold sync_committees_due. intros H. rewrite sync_committees_unfold.
  apply andb_true_iff in H as [H1 H2].
  apply negb_true_iff in H1. rewrite H1.
  destruct (time_in_slot _ _) as [t|e]; [|discriminate].
  apply negb_true_iff in H2. rewrite H2. reflexivity.
Qed.

Lemma propose_when_due (k : KnownItems) (v : BRValidator) :
  propose_due SLOTS_PER_EPOCH v = true ->
  propose SLOTS_PER_EPOCH honest_propose k v =
  if py_eq (last_slot_proposed (data v)) (slot (data v))
  then (Return None, v)
  else delegate (honest_propose k) v.
Proof.
  unfold propose_due. intros H. rewrite propose_unfold.
  destruct (duty_lookup _ _) as [duty|e]; [|discriminate].
  subst duty. reflexivity.
Qed.

(** When one of the first two guards stops the call, nothing is handed back
    and the producer is not reached: the answer is [None] or the exception
    of the clock, and the validator is as before. *)
Lemma attest_when_not_due (k : KnownItems) (v : BRValidator) :
  attest_due SECONDS_PER_SLOT v = false ->
  (fst (attest SECONDS_PER_SLOT honest_attest k v) = Return None \/
   fst (attest SECONDS_PER_SLOT honest_attest k v) = Raise ZeroDivisionError) /\
  snd (attest SECONDS_PER_SLOT honest_attest k v) = v.
Proof.
  unfold attest_due, time_in_slot. intros H. rewrite attest_unfold.
  unfold time_in_slot.
  destruct (py_eq (current_attest_slot _) _); simpl in *; [|auto].
  unfold py_mod in *. destruct (_ =? 0); simpl in *; [auto|].
  apply negb_false_iff in H. rewrite H. auto.
Qed.

Lemma sync_committees_when_not_due (k : KnownItems) (v : BRValidator) :
  sync_committees_due SECONDS_PER_SLOT v = false ->
  (fst (sync_committees SECONDS_PER_SLOT honest_sync_committee k v) = Return None \/
   fst (sync_committees SECONDS_PER_SLOT honest_sync_committee k v)
     = Raise ZeroDivisionError) /\
  snd (sync_committees SECONDS_PER_SLOT honest_sync_committee k v) = v.
Proof.
  unfold sync_committees_due, time_in_slot. intros H.
  rewrite sync_committees_unfold. unfold time_in_slot.
  destruct (_ =? _)%nat; simpl in *; [auto|].
  unfold py_mod in *. destruct (_ =? 0); simpl in *; [auto|].
  apply negb_false_iff in H. rewrite H. auto.
Qed.

Lemma duty_lookup_in_range (d : ValidatorData) :
  0 < SLOTS_PER_EPOCH ->
  slot d mod SLOTS_PER_EPOCH < Z.of_nat (length (current_proposer_duties d)) ->
  exists duty, duty_lookup SLOTS_PER_EPOCH d = Return duty.
Proof.
  intros Hpos Hlt. unfold duty_lookup.
  rewrite py_mod_nonzero by lia.
  apply py_getitem_in_range.
  pose proof (Z.mod_pos_bound (slot d) SLOTS_PER_EPOCH Hpos). lia.
Qed.

Lemma duty_lookup_past_end (d : ValidatorData) :
  0 < SLOTS_PER_EPOCH ->
  Z.of_nat (length (current_proposer_duties d)) <= slot d mod SLOTS_PER_EPOCH ->
  duty_lookup SLOTS_PER_EPOCH d = Raise IndexError.
Proof.
  intros Hpos Hle. unfold duty_lookup.
  rewrite py_mod_nonzero by lia.
  apply py_getitem_past_end. assumption.
Qed.

(** ** Claims about the guards *)


(** C8, as amended.  With [SLOTS_PER_EPOCH] positive: a duty sequence of
    length [SLOTS_PER_EPOCH] always has an entry at index
    [slot mod SLOTS_PER_EPOCH]; [propose] ends with [IndexError], the
    validator untouched, exactly when the sequence stops at or before that
    index; and a sequence shorter than [SLOTS_PER_EPOCH] that still covers
    the index is used like any other. *)
Theorem proposer_duty_lookup (v : BRValidator) (k : KnownItems) :
  0 < SLOTS_PER_EPOCH ->
  let duties := current_proposer_duties (data v) in
  let index := slot (data v) mod SLOTS_PER_EPOCH in
  (Z.of_nat (length duties) = SLOTS_PER_EPOCH ->
   0 <= index < Z.of_nat (length duties) /\
   exists duty, duty_lookup SLOTS_PER_EPOCH (data v) = Return duty) /\
  (Z.of_nat (length duties) <= index ->
   propose SLOTS_PER_EPOCH honest_propose k v = (Raise IndexError, v)) /\
  (index < Z.of_nat (length duties) ->
   exists duty,
     duty_lookup SLOTS_PER_EPOCH (data v) = Return duty /\
     propose SLOTS_PER_EPOCH honest_propose k v =
     if negb duty || py_eq (last_slot_proposed (data v)) (slot (data v))
     then (Return None, v)
     else delegate (honest_propose k) v).
Proof.
  intros Hpos duties index.
  pose proof (Z.mod_pos_bound (slot (data v)) SLOTS_PER_EPOCH Hpos) as Hb.
  fold index in Hb.
  split; [|split].
  - intros Hlen. split; [subst duties; lia|].
    apply duty_lookup_in_range; [assumption|]. fold index duties. lia.
  - intros Hle. rewrite propose_unfold.
    rewrite duty_lookup_past_end; [reflexivity|assumption|assumption].
  - intros Hlt. destruct (duty_lookup_in_range (data v) Hpos Hlt) as [duty Hd].
    exists duty. split; [assumption|].
    rewrite propose_unfold, Hd. destruct duty; reflexivity.
Qed.

(** C10.  The slashing guard is an equality test.  In a validator whose
    slashing-protection field holds a slot [l] later than the current slot
    and whose other guards let the call through, each of [attest],
    [sync_committees] and [propose] reaches its producer and hands back the
    artifact the producer returns. *)
Theorem slashing_guard_is_equality_only (v : BRValidator) (k : KnownItems) (l : Z) :
  slot (data v) < l ->
  (attest_due SECONDS_PER_SLOT v = true ->
   last_slot_attested (data v) = Some l ->
   forall a v', honest_attest k v = (Return a, v') ->
     attest SECONDS_PER_SLOT honest_attest k v = (Return (Some a), v')) /\
  (sync_committees_due SECONDS_PER_SLOT v = true ->
   last_slot_sync_committee (data v) = Some l ->
   forall bundles v', honest_sync_committee k v = (Return bundles, v') ->
     sync_committees SECONDS_PER_SLOT honest_sync_committee k v
     = (Return (Some bundles), v')) /\
  (propose_due SLOTS_PER_EPOCH v = true ->
   last_slot_proposed (data v) = Some l ->
   forall b v', honest_propose k v = (Return b, v') ->
     propose SLOTS_PER_EPOCH honest_propose k v = (Return (Some b), v')).
Proof.
  intros Hlt.
  assert (Hne : forall o, o = Some l -> py_eq o (slot (data v)) = false).
  { intros o ->. simpl. apply Z.eqb_neq. lia. }
  split; [|split]; intros Hdue Hlast x v' Hprod.
  - rewrite attest_when_due by assumption.
    rewrite (Hne _ Hlast). apply delegate_returns. assumption.
  - rewrite sync_committees_when_due by assumption.
    rewrite (Hne _ Hlast). apply delegate_returns. assumption.
  - rewrite propose_when_due by assumption.
    rewrite (Hne _ Hlast). apply delegate_returns. assumption.
Qed.

End Guards.

(** C3.  [attest] tries its guards in the order the claim gives, and it
    agrees with the decision as specified wherever comparing the time in the
    slot with 4 and with [SECONDS_PER_SLOT / 3] gives the same answer.  But
    it compares with 4: with slots of 24 seconds, no block received and 5
    seconds into the attesting slot, the decision as specified is [None]
    and [attest] calls its producer. *)
Theorem attest_guard_order_cutoff {Attestation KnownItems : Type}
  (honest_attest : KnownItems -> M Attestation) (k : KnownItems) :
  (forall S v,
     S <> 0 ->
     ((time (store v) - genesis_time (store v)) mod S <? 4)
     = ((time (store v) - genesis_time (store v)) mod S <? S / 3) ->
     attest S honest_attest k v = attest_as_specified S honest_attest k v) /\
  attest_as_specified 24 honest_attest k (sample_validator false 5 None)
  = (Return None, sample_validator false 5 None) /\
  attest 24 honest_attest k (sample_validator false 5 None)
  = delegate (honest_attest k) (sample_validator false 5 None) /\
  fst (attest 24 honest_attest k (sample_validator false 5 None))
  <> Return None.
Proof.
  split; [|split; [|split]].
  - intros S v HS Heq. rewrite attest_unfold.
    unfold attest_as_specified, time_in_slot.
    rewrite py_mod_nonzero by assumption. cbv zeta. rewrite Heq. reflexivity.
  - reflexivity.
  - reflexivity.
  - change (attest 24 honest_attest k (sample_validator false 5 None))
      with (delegate (honest_attest k) (sample_validator false 5 None)).
    apply delegate_not_none.
Qed.

(** C6.  [sync_committees] tries its guards in the order the claim gives,
    membership first, and it agrees with the decision as specified wherever
    comparing the time in the slot with 4 and with [SECONDS_PER_SLOT / 3]
    gives the same answer.  But it compares with 4: with slots of 24
    seconds, no block received and 5 seconds into the slot, the decision as
    specified is [None] and [sync_committees] calls its producer. *)
Theorem sync_committees_guard_order_cutoff
  {SyncCommitteeBundle KnownItems : Type}
  (honest_sync_committee : KnownItems -> M (list SyncCommitteeBundle))
  (k : KnownItems) :
  (forall S v,
     S <> 0 ->
     ((time (store v) - genesis_time (store v)) mod S <? 4)
     = ((time (store v) - genesis_time (store v)) mod S <? S / 3) ->
     sync_committees S honest_sync_committee k v
     = sync_committees_as_specified S honest_sync_committee k v) /\
  sync_committees_as_specified 24 honest_sync_committee k
    (sample_validator false 5 None)
  = (Return None, sample_validator false 5 None) /\
  sync_committees 24 honest_sync_committee k (sample_validator false 5 None)
  = delegate (honest_sync_committee k) (sample_validator false 5 None) /\
  fst (sync_committees 24 honest_sync_committee k
         (sample_validator false 5 None))
  <> Return None.
Proof.
  split; [|split; [|split]].
  - intros S v HS Heq. rewrite sync_committees_unfold.
    unfold sync_committees_as_specified, time_in_slot.
    rewrite py_mod_nonzero by assumption. cbv zeta. rewrite Heq. reflexivity.
  - reflexivity.
  - reflexivity.
  - change (sync_committees 24 honest_sync_committee k
              (sample_validator false 5 None))
      with (delegate (honest_sync_committee k) (sample_validator false 5 None)).
    apply delegate_not_none.
Qed.


Lemma proposer_duty_lookup_witness :
  0 < 32 /\
  propose 32 (Producers.honest_propose sample_block) true
          (short_duty_validator 1)
  = (Raise IndexError, short_duty_validator 1).
Proof.
  split; [reflexivity|].
  destruct (proposer_duty_lookup 32 (Producers.honest_propose sample_block)
              (short_duty_validator 1) true eq_refl)
    as (_ & Hpast & _).
  apply Hpast. vm_compute. discriminate.
Defined.

(** C8, as stated, fails: a table of one entry, shorter than a
    [SLOTS_PER_EPOCH] of 32, does not make [propose] abort in a slot whose
    index the table covers. *)
Lemma short_duties_counterexample :
  ~ (forall v : BRValidator,
       Z.of_nat (length (current_proposer_duties (data v))) < 32 ->
       exists (e : exn) (v' : BRValidator),
         propose 32 (Producers.honest_propose sample_block) true v
         = (Raise e, v')).
Proof.
  intros H.
  destruct (H (short_duty_validator 0)) as (e & v' & He).
  - vm_compute. reflexivity.
  - vm_compute in He. discriminate He.
Qed.

Lemma slashing_guard_is_equality_only_witness :
  slot (data (sample_validator true 0 (Some 9))) < 9 /\
  attest 12 (Producers.honest_attest sample_attestation) true
         (sample_validator true 0 (Some 9))
  = (Return (Some 5), sample_validator true 0 (Some 9)) /\
  sync_committees 12 (Producers.honest_sync_committee sample_sync_bundle) true
         (sample_validator true 0 (Some 9))
  = (Return (Some [3; 7]), sample_validator true 0 (Some 9)) /\
  propose 4 (Producers.honest_propose sample_block) true
         (sample_validator true 0 (Some 9))
  = (Return (Some 5), sample_validator true 0 (Some 9)).
Proof.
  assert (Hlt : slot (data (sample_validator true 0 (Some 9))) < 9)
    by reflexivity.
  destruct (slashing_guard_is_equality_only 12 4
              (Producers.honest_attest sample_attestation)
              (Producers.honest_sync_committee sample_sync_bundle)
              (Producers.honest_propose sample_block)
              (sample_validator true 0 (Some 9)) true 9 Hlt)
    as (Ha & Hs & Hp).
  split; [exact Hlt|]. split; [|split].
  - apply Ha; reflexivity.
  - apply Hs; reflexivity.
  - apply Hp; reflexivity.
Defined.

(** C4.  The cutoff is the number 4, not a third of [SECONDS_PER_SLOT].
    With slots of 24 seconds, no block received and 5 seconds into the slot
    (less than 24 / 3), [attest] and [sync_committees] reach their producer
    whatever the producer is; with slots of 6 seconds and 2 seconds into the
    slot (not less than 6 / 3) they still answer [None]. *)
Theorem cutoff_is_literal_four
  (Attestation SyncCommitteeBundle KnownItems : Type)
  (honest_attest : KnownItems -> M Attestation)
  (honest_sync_committee : KnownItems -> M (list SyncCommitteeBundle))
  (k : KnownItems) :
  let late := sample_validator false 5 None in
  let early := sample_validator false 2 None in
  (received_block (data late) = false /\
   time_in_slot 24 (store late) = Return 5 /\
   5 < 24 / 3 /\
   attest 24 honest_attest k late = delegate (honest_attest k) late /\
   sync_committees 24 honest_sync_committee k late
   = delegate (honest_sync_committee k) late) /\
  (received_block (data early) = false /\
   time_in_slot 6 (store early) = Return 2 /\
   ~ 2 < 6 / 3 /\
   attest 6 honest_attest k early = (Return None, early) /\
   sync_committees 6 honest_sync_committee k early = (Return None, early)).
Proof.
  intros late early. repeat split; try reflexivity.
  vm_compute. discriminate.
Qed.

(** ** The producers of the specification *)

Section Produced.

Context {Attestation SyncCommitteeBundle SignedBeaconBlock KnownItems : Type}.
Variable SECONDS_PER_SLOT : Z.
Variable SLOTS_PER_EPOCH : Z.
Variable produce_attestation : BRValidator -> KnownItems -> option Attestation.
Variable produce_sync_bundle :
  BRValidator -> KnownItems -> Z -> option SyncCommitteeBundle.
Variable produce_block : BRValidator -> KnownItems -> option SignedBeaconBlock.

Lemma honest_attest_run (k : KnownItems) (v : BRValidator) :
  delegate (Producers.honest_attest produce_attestation k) v =
  match produce_attestation v k with
  | Some a => (Return (Some a), v)
  | None => (Raise ProducerFailure, v)
  end.
Proof.
  unfold delegate, Producers.honest_attest, bind, get, ret, raise.
  destruct (produce_attestation v k); reflexivity.
Qed.

Lemma honest_sync_committee_run (k : KnownItems) (v : BRValidator) :
  delegate (Producers.honest_sync_committee produce_sync_bundle k) v =
  match traverse (produce_sync_bundle v k) (current_sync_committee (data v)) with
  | Some bundles => (Return (Some bundles), v)
  | None => (Raise ProducerFailure, v)
  end.
Proof.
  unfold delegate, Producers.honest_sync_committee, bind, get, ret, raise.
  destruct (traverse _ _); reflexivity.
Qed.

Lemma honest_propose_run (k : KnownItems) (v : BRValidator) :
  delegate (Producers.honest_propose produce_block k) v =
  match produce_block v k with
  | Some b => (Return (Some b), v)
  | None => (Raise ProducerFailure, v)
  end.
Proof.
  unfold delegate, Producers.honest_propose, bind, get, ret, raise.
  destruct (produce_block v k); reflexivity.
Qed.

(** With producers that only build content, no call changes the
    validator. *)
Lemma attest_keeps_validator (k : KnownItems) (v : BRValidator) :
  snd (attest SECONDS_PER_SLOT
         (Producers.honest_attest produce_attestation) k v) = v.
Proof.
  rewrite attest_unfold.
  destruct (negb (py_eq _ _)); [reflexivity|].
  destruct (time_in_slot _ _) as [t|x]; [|reflexivity].
  destruct (negb _ && _); [reflexivity|].
  destruct (py_eq _ _); [reflexivity|].
  rewrite honest_attest_run. destruct (produce_attestation v k); reflexivity.
Qed.

Lemma sync_committees_keeps_validator (k : KnownItems) (v : BRValidator) :
  snd (sync_committees SECONDS_PER_SLOT
         (Producers.honest_sync_committee produce_sync_bundle) k v) = v.
Proof.
  rewrite sync_committees_unfold.
  destruct (_ =? _)%nat; [reflexivity|].
  destruct (time_in_slot _ _) as [t|x]; [|reflexivity].
  destruct (negb _ && _); [reflexivity|].
  destruct (py_eq _ _); [reflexivity|].
  rewrite honest_sync_committee_run. destruct (traverse _ _); reflexivity.
Qed.

Lemma propose_keeps_validator (k : KnownItems) (v : BRValidator) :
  snd (propose SLOTS_PER_EPOCH
         (Producers.honest_propose produce_block) k v) = v.
Proof.
  rewrite propose_unfold.
  destruct (duty_lookup _ _) as [duty|x]; [|reflexivity].
  destruct (negb duty); [reflexivity|].
  destruct (py_eq _ _); [reflexivity|].
  rewrite honest_propose_run. destruct (produce_block v k); reflexivity.
Qed.

(** ** Claims about the side effect *)

(** C2, as amended.  The methods write nothing of their own.  Whatever the
    producer is, a call that answers [None] leaves the validator as it was,
    and after any call the validator is as it was or as the producer left
    it.  With a producer that only builds content the validator,
    [last_slot_attested] ([last_slot_sync_committee], [last_slot_proposed])
    included, is the same after the call as before, artifact or not. *)
Theorem methods_write_nothing
  (honest_attest : KnownItems -> M Attestation)
  (honest_sync_committee : KnownItems -> M (list SyncCommitteeBundle))
  (honest_propose : KnownItems -> M SignedBeaconBlock)
  (v : BRValidator) (k : KnownItems) :
  let ra := attest SECONDS_PER_SLOT honest_attest k v in
  let rs := sync_committees SECONDS_PER_SLOT honest_sync_committee k v in
  let rp := propose SLOTS_PER_EPOCH honest_propose k v in
  ((fst ra = Return None -> snd ra = v) /\
   (snd ra = v \/ snd ra = snd (honest_attest k v))) /\
  ((fst rs = Return None -> snd rs = v) /\
   (snd rs = v \/ snd rs = snd (honest_sync_committee k v))) /\
  ((fst rp = Return None -> snd rp = v) /\
   (snd rp = v \/ snd rp = snd (honest_propose k v))) /\
  snd (attest SECONDS_PER_SLOT
         (Producers.honest_attest produce_attestation) k v) = v /\
  snd (sync_committees SECONDS_PER_SLOT
         (Producers.honest_sync_committee produce_sync_bundle) k v) = v /\
  snd (propose SLOTS_PER_EPOCH
         (Producers.honest_propose produce_block) k v) = v.
Proof.
  assert (Hdel : forall (A : Type) (m : M A),
            (fst (delegate m v) = Return None -> snd (delegate m v) = v) /\
            (snd (delegate m v) = v \/ snd (delegate m v) = snd (m v))).
  { intros A m. split.
    - intros H. exfalso. exact (delegate_not_none _ _ H).
    - right. unfold delegate, bind, ret.
      destruct (m v) as [[a|x] w]; reflexivity. }
  intros ra rs rp. subst ra rs rp.
  split; [|split; [|split; [|split; [|split]]]].
  - rewrite attest_unfold.
    destruct (negb (py_eq _ _)); [simpl; auto|].
    destruct (time_in_slot _ _) as [t|x]; [|simpl; auto].
    destruct (negb _ && _); [simpl; auto|].
    destruct (py_eq _ _); [simpl; auto|]. apply Hdel.
  - rewrite sync_committees_unfold.
    destruct (_ =? _)%nat; [simpl; auto|].
    destruct (time_in_slot _ _) as [t|x]; [|simpl; auto].
    destruct (negb _ && _); [simpl; auto|].
    destruct (py_eq _ _); [simpl; auto|]. apply Hdel.
  - rewrite propose_unfold.
    destruct (duty_lookup _ _) as [duty|x]; [|simpl; auto].
    destruct (negb duty); [simpl; auto|].
    destruct (py_eq _ _); [simpl; auto|]. apply Hdel.
  - apply attest_keeps_validator.
  - apply sync_committees_keeps_validator.
  - apply propose_keeps_validator.
Qed.

(** C7.  When the producer is reached and cannot build its artifact, the
    call ends with the producer's failure and the validator is as before the
    call, so the three slashing-protection fields hold what they held; a
    second call on that validator, with known items the producer can work
    from, hands back the artifact. *)
Theorem producer_failure_atomicity (v : BRValidator) (k : KnownItems) :
  (attest_due SECONDS_PER_SLOT v = true ->
   last_slot_attested (data v) <> Some (slot (data v)) ->
   produce_attestation v k = None ->
   attest SECONDS_PER_SLOT (Producers.honest_attest produce_attestation) k v
   = (Raise ProducerFailure, v) /\
   forall k' a,
     produce_attestation v k' = Some a ->
     fst (attest SECONDS_PER_SLOT (Producers.honest_attest produce_attestation) k'
            (snd (attest SECONDS_PER_SLOT
                    (Producers.honest_attest produce_attestation) k v)))
     = Return (Some a)) /\
  (sync_committees_due SECONDS_PER_SLOT v = true ->
   last_slot_sync_committee (data v) <> Some (slot (data v)) ->
   traverse (produce_sync_bundle v k) (current_sync_committee (data v)) = None ->
   sync_committees SECONDS_PER_SLOT
     (Producers.honest_sync_committee produce_sync_bundle) k v
   = (Raise ProducerFailure, v) /\
   forall k' bundles,
     traverse (produce_sync_bundle v k') (current_sync_committee (data v))
     = Some bundles ->
     fst (sync_committees SECONDS_PER_SLOT
            (Producers.honest_sync_committee produce_sync_bundle) k'
            (snd (sync_committees SECONDS_PER_SLOT
                    (Producers.honest_sync_committee produce_sync_bundle) k v)))
     = Return (Some bundles)) /\
  (propose_due SLOTS_PER_EPOCH v = true ->
   last_slot_proposed (data v) <> Some (slot (data v)) ->
   produce_block v k = None ->
   propose SLOTS_PER_EPOCH (Producers.honest_propose produce_block) k v
   = (Raise ProducerFailure, v) /\
   forall k' b,
     produce_block v k' = Some b ->
     fst (propose SLOTS_PER_EPOCH (Producers.honest_propose produce_block) k'
            (snd (propose SLOTS_PER_EPOCH
                    (Producers.honest_propose produce_block) k v)))
     = Return (Some b)).
Proof.
  split; [|split]; intros Hdue Hlast Hfail; apply py_eq_false in Hlast.
  - assert (Hrun : forall k0,
              attest SECONDS_PER_SLOT
                (Producers.honest_attest produce_attestation) k0 v
              = match produce_attestation v k0 with
                | Some a => (Return (Some a), v)
                | None => (Raise ProducerFailure, v)
                end).
    { intros k0. rewrite attest_when_due by assumption.
      rewrite Hlast. apply honest_attest_run. }
    split.
    + rewrite Hrun, Hfail. reflexivity.
    + intros k' a Ha. rewrite (Hrun k), Hfail. simpl.
      rewrite Hrun, Ha. reflexivity.
  - assert (Hrun : forall k0,
              sync_committees SECONDS_PER_SLOT
                (Producers.honest_sync_committee produce_sync_bundle) k0 v
              = match traverse (produce_sync_bundle v k0)
                        (current_sync_committee (data v)) with
                | Some l => (Return (Some l), v)
                | None => (Raise ProducerFailure, v)
                end).
    { intros k0. rewrite sync_committees_when_due by assumption.
      rewrite Hlast. apply honest_sync_committee_run. }
    split.
    + rewrite Hrun, Hfail. reflexivity.
    + intros k' l Hl. rewrite (Hrun k), Hfail. simpl.
      rewrite Hrun, Hl. reflexivity.
  - assert (Hrun : forall k0,
              propose SLOTS_PER_EPOCH
                (Producers.honest_propose produce_block) k0 v
              = match produce_block v k0 with
                | Some b => (Return (Some b), v)
                | None => (Raise ProducerFailure, v)
                end).
    { intros k0. rewrite propose_when_due by assumption.
      rewrite Hlast. apply honest_propose_run. }
    split.
    + rewrite Hrun, Hfail. reflexivity.
    + intros k' b Hb. rewrite (Hrun k), Hfail. simpl.
      rewrite Hrun, Hb. reflexivity.
Qed.

(** ** The driver *)

Local Abbreviation call' :=
  (call SECONDS_PER_SLOT SLOTS_PER_EPOCH produce_attestation
        produce_sync_bundle produce_block).
Local Abbreviation run' :=
  (run SECONDS_PER_SLOT SLOTS_PER_EPOCH produce_attestation
       produce_sync_bundle produce_block).
Local Abbreviation run_recorded' :=
  (run_recorded SECONDS_PER_SLOT SLOTS_PER_EPOCH produce_attestation
       produce_sync_bundle produce_block).
Local Abbreviation once_each' :=
  (once_each SECONDS_PER_SLOT SLOTS_PER_EPOCH produce_attestation
       produce_sync_bundle produce_block).
Local Abbreviation Artifact := (artifact Attestation SyncCommitteeBundle SignedBeaconBlock).

Lemma tag_run {A B : Type} (f : A -> B) (m : M (option A)) (v : BRValidator) :
  tag f m v =
  match m v with
  | (Return r, v') => (Return (option_map f r), v')
  | (Raise x, v') => (Raise x, v')
  end.
Proof. unfold tag, bind, ret. destruct (m v) as [[r|x] v']; reflexivity. Qed.

Lemma tag_keeps {A B : Type} (f : A -> B) (m : M (option A)) (v : BRValidator) :
  snd (m v) = v -> snd (tag f m v) = v.
Proof. rewrite tag_run. destruct (m v) as [[r|x] v']; simpl; auto. Qed.

(** A call leaves the validator as it was. *)
Lemma call_keeps_validator (e : entry) (k : KnownItems) (v : BRValidator) :
  snd (call' e k v) = v.
Proof.
  destruct e; unfold call; apply tag_keeps.
  - apply attest_keeps_validator.
  - apply sync_committees_keeps_validator.
  - apply propose_keeps_validator.
Qed.

(** A call that hands back an artifact went through the clock, or through
    the duty table. *)
Lemma call_success_possible (e : entry) (k : KnownItems) (v v' : BRValidator)
  (b : Artifact) :
  call' e k v = (Return (Some b), v') ->
  match e with
  | Attest | SyncCommittees => SECONDS_PER_SLOT <> 0
  | Propose => exists duty, duty_lookup SLOTS_PER_EPOCH (data v) = Return duty
  end.
Proof.
  destruct e; unfold call; rewrite tag_run.
  - rewrite attest_unfold. unfold time_in_slot, py_mod.
    destruct (negb (py_eq _ _)); [discriminate|].
    destruct (Z.eqb_spec SECONDS_PER_SLOT 0); [discriminate|auto].
  - rewrite sync_committees_unfold. unfold time_in_slot, py_mod.
    destruct (_ =? _)%nat; [discriminate|].
    destruct (Z.eqb_spec SECONDS_PER_SLOT 0); [discriminate|auto].
  - rewrite propose_unfold.
    destruct (duty_lookup _ _) as [duty|x]; [eauto|discriminate].
Qed.

Lemma mark_slot (e : entry) (v : BRValidator) (s : option Z) :
  slot (data (mark e v s)) = slot (data v).
Proof. destruct e; reflexivity. Qed.

Lemma mark_duty_lookup (e : entry) (v : BRValidator) (s : option Z) :
  duty_lookup SLOTS_PER_EPOCH (data (mark e v s))
  = duty_lookup SLOTS_PER_EPOCH (data v).
Proof. destruct e; reflexivity. Qed.

Lemma last_slot_of_mark_same (e : entry) (v : BRValidator) (s : option Z) :
  last_slot_of e (mark e v s) = s.
Proof. destruct e; reflexivity. Qed.

Lemma last_slot_of_mark_other (e e' : entry) (v : BRValidator) (s : option Z) :
  e <> e' -> last_slot_of e (mark e' v s) = last_slot_of e v.
Proof. destruct e, e'; intros H; try reflexivity; contradiction. Qed.

Lemma entry_eq_dec (e e' : entry) : {e = e'} + {e <> e'}.
Proof. decide equality. Defined.

Lemma acted_mark (e e' : entry) (v : BRValidator) :
  acted SECONDS_PER_SLOT SLOTS_PER_EPOCH e v ->
  acted SECONDS_PER_SLOT SLOTS_PER_EPOCH e (mark e' v (Some (slot (data v)))).
Proof.
  intros [Hlast Hcan]. split.
  - rewrite mark_slot. destruct (entry_eq_dec e e') as [<- | Hne].
    + apply last_slot_of_mark_same.
    + rewrite last_slot_of_mark_other by assumption. assumption.
  - destruct e; try assumption. rewrite mark_duty_lookup. assumption.
Qed.

(** Once the duty of [e] is discharged it stays so: through whatever the
    driver records after a call ... *)
Lemma acted_record (e e' : entry) (o : outcome (option Artifact))
  (v : BRValidator) :
  acted SECONDS_PER_SLOT SLOTS_PER_EPOCH e v ->
  acted SECONDS_PER_SLOT SLOTS_PER_EPOCH e (record e' o v).
Proof.
  intros H. destruct o as [[b|]|x]; simpl; try assumption.
  apply acted_mark. assumption.
Qed.

(** ... and through any renewal of the driver's view. *)
Lemma acted_refresh (e : entry) (v w : BRValidator) :
  acted SECONDS_PER_SLOT SLOTS_PER_EPOCH e v ->
  acted SECONDS_PER_SLOT SLOTS_PER_EPOCH e (refresh v w).
Proof.
  intros [Hlast Hcan]. split.
  - destruct e; exact Hlast.
  - destruct e; exact Hcan.
Qed.

(** Recording a call that handed back an artifact discharges the duty. *)
Lemma acted_after_success (e : entry) (k : KnownItems) (v v' : BRValidator)
  (b : Artifact) :
  call' e k v = (Return (Some b), v') ->
  acted SECONDS_PER_SLOT SLOTS_PER_EPOCH e (record e (Return (Some b)) v').
Proof.
  intros H. pose proof (call_success_possible _ _ _ _ _ H) as Hcan.
  pose proof (call_keeps_validator e k v) as Hsame.
  rewrite H in Hsame. simpl in Hsame. subst v'. simpl. split.
  - rewrite mark_slot. apply last_slot_of_mark_same.
  - destruct e; assumption.
Qed.

(** A discharged duty makes the entry point answer [None]. *)
Lemma acted_declines (e : entry) (k : KnownItems) (v : BRValidator) :
  acted SECONDS_PER_SLOT SLOTS_PER_EPOCH e v ->
  call' e k v = (Return None, v).
Proof.
  intros [Hlast Hcan]. apply py_eq_true in Hlast.
  destruct e; unfold call; rewrite tag_run; simpl in Hlast.
  - rewrite attest_unfold. unfold time_in_slot.
    rewrite py_mod_nonzero by assumption. rewrite Hlast.
    destruct (negb (py_eq _ _)); [reflexivity|].
    destruct (negb _ && _); reflexivity.
  - rewrite sync_committees_unfold. unfold time_in_slot.
    rewrite py_mod_nonzero by assumption. rewrite Hlast.
    destruct (_ =? _)%nat; [reflexivity|].
    destruct (negb _ && _); reflexivity.
  - rewrite propose_unfold. destruct Hcan as [duty ->]. rewrite Hlast.
    destruct duty; reflexivity.
Qed.

Lemma run_call (e : entry) (k : KnownItems) (evs : list (event KnownItems))
  (v : BRValidator) :
  run' (Call e k :: evs) v =
  ((e, fst (call' e k v)) :: fst (run' evs v), snd (run' evs v)).
Proof.
  simpl. pose proof (call_keeps_validator e k v) as Hsame.
  destruct (call' e k v) as [o v1]. simpl in *. subst v1.
  destruct (run' evs v) as [log v2]. reflexivity.
Qed.

Lemma run_recorded_call (e : entry) (k : KnownItems)
  (evs : list (event KnownItems)) (v : BRValidator) :
  run_recorded' (Call e k :: evs) v =
  ((e, fst (call' e k v))
     :: fst (run_recorded' evs (record e (fst (call' e k v)) v)),
   snd (run_recorded' evs (record e (fst (call' e k v)) v))).
Proof.
  simpl. pose proof (call_keeps_validator e k v) as Hsame.
  destruct (call' e k v) as [o v1]. simpl in *. subst v1.
  destruct (run_recorded' evs (record e o v)) as [log v2]. reflexivity.
Qed.

Lemma run_recorded_acted (e : entry) (evs : list (event KnownItems))
  (v : BRValidator) :
  acted SECONDS_PER_SLOT SLOTS_PER_EPOCH e v ->
  forall o, In (e, o) (fst (run_recorded' evs v)) -> o = Return None.
Proof.
  revert v. induction evs as [|[e' k | w] evs IH]; intros v Hacted o Hin.
  - contradiction.
  - rewrite run_recorded_call in Hin. simpl in Hin. destruct Hin as [Heq | Hin].
    + injection Heq as -> <-. rewrite acted_declines by assumption. reflexivity.
    + apply (IH (record e' (fst (call' e' k v)) v)); [apply acted_record|];
        assumption.
  - simpl in Hin. apply (IH (refresh v w)); [apply acted_refresh|]; assumption.
Qed.


(** ** Calls of different entry points *)

Lemma once_each_runs (known : entry -> KnownItems) (order : list entry)
  (v : BRValidator) :
  once_each' known order v
  = (map (fun e => (e, fst (call' e (known e) v))) order, v).
Proof.
  unfold once_each. induction order as [|e order IH]; [reflexivity|].
  cbn [map]. rewrite run_call, IH. reflexivity.
Qed.

Lemma result_of_map (F : entry -> outcome (option Artifact)) (e : entry)
  (order : list entry) :
  In e order -> result_of e (map (fun e' => (e', F e')) order) = Some (F e).
Proof.
  induction order as [|e' order IH]; intros Hin; [contradiction|].
  simpl. destruct (entry_eq_dec e e') as [<- | Hne].
  - destruct e; reflexivity.
  - destruct Hin as [Heq | Hin]; [congruence|].
    rewrite (IH Hin). destruct e, e'; try reflexivity; contradiction.
Qed.


End Produced.

(** ** The claims at the concrete validator *)



(** C2, as stated, fails: [attest] hands back an attestation for slot 5 and
    [last_slot_attested] is not set to 5. *)
Lemma side_effect_counterexample :
  ~ (forall (v : BRValidator) (k : bool),
       (exists a,
          fst (attest 12 (Producers.honest_attest sample_attestation) k v)
          = Return (Some a)) ->
       last_slot_attested
         (data (snd (attest 12 (Producers.honest_attest sample_attestation)
                       k v)))
       = Some (slot (data v))).
Proof.
  intros H.
  specialize (H (sample_validator false 4 None) true).
  assert (Hsome : exists a,
            fst (attest 12 (Producers.honest_attest sample_attestation) true
                   (sample_validator false 4 None)) = Return (Some a))
    by (exists 5; reflexivity).
  specialize (H Hsome). vm_compute in H. discriminate H.
Qed.

Lemma producer_failure_atomicity_witness :
  attest 12 (Producers.honest_attest sample_attestation) false
         (sample_validator true 0 None)
  = (Raise ProducerFailure, sample_validator true 0 None) /\
  fst (attest 12 (Producers.honest_attest sample_attestation) true
         (snd (attest 12 (Producers.honest_attest sample_attestation) false
                 (sample_validator true 0 None))))
  = Return (Some 5).
Proof.
  destruct (producer_failure_atomicity 12 4 sample_attestation
              sample_sync_bundle sample_block
              (sample_validator true 0 None) false) as (Ha & _ & _).
  destruct Ha as [H1 H2].
  - reflexivity.
  - simpl. discriminate.
  - reflexivity.
  - split; [exact H1|]. apply H2. reflexivity.
Defined.


(** * The scheduler for any producer *)

(** What follows holds for the three methods as they stand in the source,
    whatever [honest_attest], [honest_sync_committee] and [honest_propose]
    do. *)

Lemma py_getitem_raises {A : Type} (l : list A) (i : Z) (e : exn) :
  py_getitem l i = Raise e -> e = IndexError.
Proof.
  unfold py_getitem. destruct (_ && _).
  - destruct (nth_error _ _); [discriminate|]. intros [= <-]. reflexivity.
  - intros [= <-]. reflexivity.
Qed.

Lemma delegate_run {A : Type} (m : M A) (v : BRValidator) :
  delegate m v =
  match m v with
  | (Return a, v') => (Return (Some a), v')
  | (Raise e, v') => (Raise e, v')
  end.
Proof. reflexivity. Qed.

Section Scheduler.

Context {Attestation SyncCommitteeBundle SignedBeaconBlock KnownItems : Type}.
Variable SECONDS_PER_SLOT : Z.
Variable SLOTS_PER_EPOCH : Z.
Variable honest_attest : KnownItems -> M Attestation.
Variable honest_sync_committee : KnownItems -> M (list SyncCommitteeBundle).
Variable honest_propose : KnownItems -> M SignedBeaconBlock.

Local Abbreviation attest' := (attest SECONDS_PER_SLOT honest_attest).
Local Abbreviation sync_committees' :=
  (sync_committees SECONDS_PER_SLOT honest_sync_committee).
Local Abbreviation propose' := (propose SLOTS_PER_EPOCH honest_propose).

(** [None] comes back exactly when the guards say so, and then nothing was
    written. *)
Lemma attest_none_iff (k : KnownItems) (v : BRValidator) :
  fst (attest' k v) = Return None <-> attest_declines SECONDS_PER_SLOT v = true.
Proof.
  rewrite attest_unfold. unfold attest_declines.
  destruct (negb (py_eq (current_attest_slot _) _)); simpl; [split; intros _; reflexivity|].
  destruct (time_in_slot _ _) as [t|x]; simpl; [|split; discriminate].
  destruct (negb _ && _); simpl; [split; intros _; reflexivity|].
  destruct (py_eq _ _); simpl; [split; intros _; reflexivity|].
  split; [|discriminate].
  intros H. exfalso. exact (delegate_not_none _ _ H).
Qed.

Lemma sync_committees_none_iff (k : KnownItems) (v : BRValidator) :
  fst (sync_committees' k v) = Return None <->
  sync_committees_declines SECONDS_PER_SLOT v = true.
Proof.
  rewrite sync_committees_unfold. unfold sync_committees_declines.
  destruct (_ =? _)%nat; simpl; [split; intros _; reflexivity|].
  destruct (time_in_slot _ _) as [t|x]; simpl; [|split; discriminate].
  destruct (negb _ && _); simpl; [split; intros _; reflexivity|].
  destruct (py_eq _ _); simpl; [split; intros _; reflexivity|].
  split; [|discriminate].
  intros H. exfalso. exact (delegate_not_none _ _ H).
Qed.

Lemma propose_none_iff (k : KnownItems) (v : BRValidator) :
  fst (propose' k v) = Return None <->
  propose_declines SLOTS_PER_EPOCH v = true.
Proof.
  rewrite propose_unfold. unfold propose_declines.
  destruct (duty_lookup _ _) as [duty|x]; simpl; [|split; discriminate].
  destruct (negb duty); simpl; [split; intros _; reflexivity|].
  destruct (py_eq _ _); simpl; [split; intros _; reflexivity|].
  split; [|discriminate].
  intros H. exfalso. exact (delegate_not_none _ _ H).
Qed.

(** X1.  A call that answers [None] has written nothing, whatever the
    producer is: the validator after [attest], [sync_committees] or [propose]
    is the validator before. *)
Theorem none_leaves_validator_untouched (k : KnownItems) (v : BRValidator) :
  (fst (attest' k v) = Return None -> snd (attest' k v) = v) /\
  (fst (sync_committees' k v) = Return None -> snd (sync_committees' k v) = v) /\
  (fst (propose' k v) = Return None -> snd (propose' k v) = v).
Proof.
  split; [|split].
  - rewrite attest_unfold.
    destruct (negb (py_eq (current_attest_slot _) _)); [reflexivity|].
    destruct (time_in_slot _ _) as [t|x]; [|reflexivity].
    destruct (negb _ && _); [reflexivity|].
    destruct (py_eq _ _); [reflexivity|].
    intros H. exfalso. exact (delegate_not_none _ _ H).
  - rewrite sync_committees_unfold.
    destruct (_ =? _)%nat; [reflexivity|].
    destruct (time_in_slot _ _) as [t|x]; [|reflexivity].
    destruct (negb _ && _); [reflexivity|].
    destruct (py_eq _ _); [reflexivity|].
    intros H. exfalso. exact (delegate_not_none _ _ H).
  - rewrite propose_unfold.
    destruct (duty_lookup _ _) as [duty|x]; [|reflexivity].
    destruct (negb duty); [reflexivity|].
    destruct (py_eq _ _); [reflexivity|].
    intros H. exfalso. exact (delegate_not_none _ _ H).
Qed.

(** X2.  Every exception that leaves a method is accounted for.  From
    [attest] and [sync_committees] it is the [ZeroDivisionError] of a zero
    [SECONDS_PER_SLOT], raised after the duty guard let the call through and
    with the validator untouched, or it is the producer's own.  From
    [propose] it is the [ZeroDivisionError] of a zero [SLOTS_PER_EPOCH], the
    [IndexError] of the subscript, both with the validator untouched, or the
    producer's own. *)
Theorem exceptions_accounted_for (k : KnownItems) (v : BRValidator) :
  (forall e v',
     attest' k v = (Raise e, v') ->
     (e = ZeroDivisionError /\ SECONDS_PER_SLOT = 0 /\
      current_attest_slot (data v) = Some (slot (data v)) /\ v' = v) \/
     honest_attest k v = (Raise e, v')) /\
  (forall e v',
     sync_committees' k v = (Raise e, v') ->
     (e = ZeroDivisionError /\ SECONDS_PER_SLOT = 0 /\
      current_sync_committee (data v) <> [] /\ v' = v) \/
     honest_sync_committee k v = (Raise e, v')) /\
  (forall e v',
     propose' k v = (Raise e, v') ->
     (e = ZeroDivisionError /\ SLOTS_PER_EPOCH = 0 /\ v' = v) \/
     (e = IndexError /\ SLOTS_PER_EPOCH <> 0 /\
      py_getitem (current_proposer_duties (data v))
                 (slot (data v) mod SLOTS_PER_EPOCH) = Raise IndexError /\
      v' = v) \/
     honest_propose k v = (Raise e, v')).
Proof.
  split; [|split]; intros e v'.
  - rewrite attest_unfold. unfold time_in_slot, py_mod.
    destruct (py_eq (current_attest_slot _) _) eqn:Hduty; simpl;
      [|discriminate].
    apply py_eq_true in Hduty.
    destruct (Z.eqb_spec SECONDS_PER_SLOT 0) as [HS | HS].
    + intros [= <- <-]. left. auto.
    + destruct (negb _ && _); [discriminate|].
      destruct (py_eq _ _); [discriminate|].
      rewrite delegate_run.
      destruct (honest_attest k v) as [[a|x] w]; [discriminate|].
      intros [= <- <-]. right. reflexivity.
  - rewrite sync_committees_unfold. unfold time_in_slot, py_mod.
    destruct (current_sync_committee (data v)) as [|i l] eqn:Hmem; simpl;
      [discriminate|].
    destruct (Z.eqb_spec SECONDS_PER_SLOT 0) as [HS | HS].
    + intros [= <- <-]. left. repeat split; [assumption|discriminate].
    + destruct (negb _ && _); [discriminate|].
      destruct (py_eq _ _); [discriminate|].
      rewrite delegate_run.
      destruct (honest_sync_committee k v) as [[a|x] w]; [discriminate|].
      intros [= <- <-]. right. reflexivity.
  - rewrite propose_unfold. unfold duty_lookup, py_mod.
    destruct (Z.eqb_spec SLOTS_PER_EPOCH 0) as [HS | HS].
    + intros [= <- <-]. left. auto.
    + destruct (py_getitem _ _) as [duty|x] eqn:Hget.
      * destruct (negb duty); [discriminate|].
        destruct (py_eq _ _); [discriminate|].
        rewrite delegate_run.
        destruct (honest_propose k v) as [[a|y] w]; [discriminate|].
        intros [= <- <-]. right. right. reflexivity.
      * intros [= <- <-]. right. left.
        pose proof (py_getitem_raises _ _ _ Hget) as ->. auto.
Qed.

(** X3.  The gate as the code has it: with a nonzero [SECONDS_PER_SLOT], no
    block received and fewer than 4 seconds into the slot, [attest] and
    [sync_committees] answer [None] and leave the validator alone, whatever
    the duties, the slashing-protection fields and the producers. *)
Theorem timing_gate_four_seconds (k : KnownItems) (v : BRValidator) :
  SECONDS_PER_SLOT <> 0 ->
  received_block (data v) = false ->
  (time (store v) - genesis_time (store v)) mod SECONDS_PER_SLOT < 4 ->
  attest' k v = (Return None, v) /\
  sync_committees' k v = (Return None, v).
Proof.
  intros HS Hrb Ht.
  rewrite attest_unfold, sync_committees_unfold. unfold time_in_slot.
  rewrite py_mod_nonzero by assumption. rewrite Hrb. simpl.
  apply Z.ltb_lt in Ht. rewrite Ht.
  destruct (negb (py_eq _ _)); destruct (_ =? _)%nat; split; reflexivity.
Qed.

(** X4.  With slots of four seconds or less (and not zero) the gate never
    opens by time: a validator that has not received a block gets [None]
    from [attest] and [sync_committees] at every reading of the clock. *)
Theorem short_slots_wait_for_block (k : KnownItems) (v : BRValidator) :
  SECONDS_PER_SLOT <> 0 ->
  SECONDS_PER_SLOT <= 4 ->
  received_block (data v) = false ->
  attest' k v = (Return None, v) /\
  sync_committees' k v = (Return None, v).
Proof.
  intros HS Hle Hrb.
  assert (Ht : (time (store v) - genesis_time (store v)) mod SECONDS_PER_SLOT < 4).
  { destruct (Z.lt_trichotomy SECONDS_PER_SLOT 0) as [Hneg | [H0 | Hpos]].
    - pose proof (Z.mod_neg_bound
                    (time (store v) - genesis_time (store v))
                    SECONDS_PER_SLOT Hneg). lia.
    - contradiction.
    - pose proof (Z.mod_pos_bound
                    (time (store v) - genesis_time (store v))
                    SECONDS_PER_SLOT Hpos). lia. }
  rewrite attest_unfold, sync_committees_unfold. unfold time_in_slot.
  rewrite py_mod_nonzero by assumption. rewrite Hrb. simpl.
  apply Z.ltb_lt in Ht. rewrite Ht.
  destruct (negb (py_eq _ _)); destruct (_ =? _)%nat; split; reflexivity.
Qed.

(** X5.  Once a block has been received the clock no longer matters: in its
    attesting slot, with [last_slot_attested] not at the slot, [attest]
    reaches its producer at any time in the slot, the very start included;
    likewise [sync_committees] for a committee member. *)
Theorem block_received_fast_path (k : KnownItems) (v : BRValidator) :
  SECONDS_PER_SLOT <> 0 ->
  received_block (data v) = true ->
  (current_attest_slot (data v) = Some (slot (data v)) ->
   last_slot_attested (data v) <> Some (slot (data v)) ->
   attest' k v = delegate (honest_attest k) v) /\
  (current_sync_committee (data v) <> [] ->
   last_slot_sync_committee (data v) <> Some (slot (data v)) ->
   sync_committees' k v = delegate (honest_sync_committee k) v).
Proof.
  intros HS Hrb. split; intros Hduty Hlast; apply py_eq_false in Hlast.
  - apply py_eq_true in Hduty.
    rewrite attest_unfold. unfold time_in_slot.
    rewrite py_mod_nonzero by assumption.
    rewrite Hduty, Hrb, Hlast. reflexivity.
  - rewrite sync_committees_unfold. unfold time_in_slot.
    rewrite py_mod_nonzero by assumption.
    rewrite Hrb, Hlast.
    destruct (current_sync_committee (data v)); [contradiction|reflexivity].
Qed.

Lemma time_in_slot_shift (t g n : Z) :
  time_in_slot SECONDS_PER_SLOT (mkStore (t + n * SECONDS_PER_SLOT) g)
  = time_in_slot SECONDS_PER_SLOT (mkStore t g).
Proof.
  unfold time_in_slot, py_mod. simpl.
  destruct (Z.eqb_spec SECONDS_PER_SLOT 0) as [HS | HS]; [reflexivity|].
  replace (t + n * SECONDS_PER_SLOT - g) with (t - g + n * SECONDS_PER_SLOT)
    by ring.
  rewrite Z.mod_add by assumption. reflexivity.
Qed.

Lemma time_in_slot_translate (t g d : Z) :
  time_in_slot SECONDS_PER_SLOT (mkStore (t + d) (g + d))
  = time_in_slot SECONDS_PER_SLOT (mkStore t g).
Proof.
  unfold time_in_slot. simpl.
  replace (t + d - (g + d)) with (t - g) by ring. reflexivity.
Qed.

(** X6.  The clock enters the decision only as time elapsed since genesis,
    modulo the slot length: moving [store.time] by whole slots, or moving
    [store.time] and [store.genesis_time] together, does not change whether
    [attest] and [sync_committees] answer [None]. *)
Theorem clock_enters_by_remainder (k : KnownItems) (v : BRValidator)
  (rb : bool) (t g n d : Z) :
  (fst (attest' k (set_clock v rb (t + n * SECONDS_PER_SLOT) g)) = Return None
   <-> fst (attest' k (set_clock v rb t g)) = Return None) /\
  (fst (attest' k (set_clock v rb (t + d) (g + d))) = Return None
   <-> fst (attest' k (set_clock v rb t g)) = Return None) /\
  (fst (sync_committees' k (set_clock v rb (t + n * SECONDS_PER_SLOT) g))
   = Return None
   <-> fst (sync_committees' k (set_clock v rb t g)) = Return None) /\
  (fst (sync_committees' k (set_clock v rb (t + d) (g + d))) = Return None
   <-> fst (sync_committees' k (set_clock v rb t g)) = Return None).
Proof.
  rewrite !attest_none_iff, !sync_committees_none_iff.
  unfold attest_declines, sync_committees_declines, set_clock.
  cbn [data store]. rewrite time_in_slot_shift, time_in_slot_translate.
  repeat split; intros H; exact H.
Qed.

(** X7.  [attest] and [sync_committees] open at the same tick: for a
    validator in its attesting slot that is a committee member and has
    discharged neither duty in this slot, both answer [None], or both end
    with [ZeroDivisionError], or both reach their producer. *)
Theorem attest_and_sync_open_together (k : KnownItems) (v : BRValidator) :
  current_attest_slot (data v) = Some (slot (data v)) ->
  current_sync_committee (data v) <> [] ->
  last_slot_attested (data v) <> Some (slot (data v)) ->
  last_slot_sync_committee (data v) <> Some (slot (data v)) ->
  (attest' k v = (Return None, v) /\ sync_committees' k v = (Return None, v)) \/
  (attest' k v = (Raise ZeroDivisionError, v) /\
   sync_committees' k v = (Raise ZeroDivisionError, v)) \/
  (attest' k v = delegate (honest_attest k) v /\
   sync_committees' k v = delegate (honest_sync_committee k) v).
Proof.
  intros Hduty Hmem Hla Hls.
  apply py_eq_true in Hduty. apply py_eq_false in Hla, Hls.
  rewrite attest_unfold, sync_committees_unfold.
  rewrite Hduty, Hla, Hls.
  destruct (current_sync_committee (data v)); [contradiction|]. simpl.
  destruct (time_in_slot _ _) as [t|x] eqn:Ht.
  - destruct (negb _ && _); auto.
  - unfold time_in_slot, py_mod in Ht.
    destruct (_ =? 0); [|discriminate]. injection Ht as <-. auto.
Qed.

(** X8.  An artifact comes back only when the duty is due and not yet
    discharged, and it is the producer's.  For [attest]: the slot is the
    attesting slot, [last_slot_attested] is not the slot, a block has been
    received or at least 4 seconds of the slot have passed, and
    [honest_attest] returned that attestation.  Likewise for
    [sync_committees] with a non-empty committee, and for [propose] with a
    duty entry that is set. *)
Theorem artifact_only_when_due (k : KnownItems) (v : BRValidator) :
  (forall a v',
     attest' k v = (Return (Some a), v') ->
     current_attest_slot (data v) = Some (slot (data v)) /\
     last_slot_attested (data v) <> Some (slot (data v)) /\
     SECONDS_PER_SLOT <> 0 /\
     (received_block (data v) = true \/
      4 <= (time (store v) - genesis_time (store v)) mod SECONDS_PER_SLOT) /\
     honest_attest k v = (Return a, v')) /\
  (forall bundles v',
     sync_committees' k v = (Return (Some bundles), v') ->
     current_sync_committee (data v) <> [] /\
     last_slot_sync_committee (data v) <> Some (slot (data v)) /\
     SECONDS_PER_SLOT <> 0 /\
     (received_block (data v) = true \/
      4 <= (time (store v) - genesis_time (store v)) mod SECONDS_PER_SLOT) /\
     honest_sync_committee k v = (Return bundles, v')) /\
  (forall b v',
     propose' k v = (Return (Some b), v') ->
     SLOTS_PER_EPOCH <> 0 /\
     py_getitem (current_proposer_duties (data v))
                (slot (data v) mod SLOTS_PER_EPOCH) = Return true /\
     last_slot_proposed (data v) <> Some (slot (data v)) /\
     honest_propose k v = (Return b, v')).
Proof.
  assert (Hgate : forall rb t,
            negb rb && (t <? 4) = false -> rb = true \/ 4 <= t).
  { intros rb t H. destruct rb; [auto|]. simpl in H.
    apply Z.ltb_ge in H. auto. }
  split; [|split]; intros a v'.
  - rewrite attest_unfold. unfold time_in_slot, py_mod.
    destruct (py_eq (current_attest_slot _) _) eqn:Hduty; simpl;
      [|discriminate].
    destruct (Z.eqb_spec SECONDS_PER_SLOT 0) as [HS | HS]; [discriminate|].
    destruct (negb _ && _) eqn:Hg; [discriminate|].
    destruct (py_eq (last_slot_attested _) _) eqn:Hlast; [discriminate|].
    rewrite delegate_run.
    destruct (honest_attest k v) as [[a0|x] w]; [|discriminate].
    intros [= <- <-].
    apply py_eq_true in Hduty. apply py_eq_false in Hlast.
    repeat split; try assumption. apply Hgate. assumption.
  - rewrite sync_committees_unfold. unfold time_in_slot, py_mod.
    destruct (current_sync_committee (data v)) as [|i l] eqn:Hmem; simpl;
      [discriminate|].
    destruct (Z.eqb_spec SECONDS_PER_SLOT 0) as [HS | HS]; [discriminate|].
    destruct (negb _ && _) eqn:Hg; [discriminate|].
    destruct (py_eq (last_slot_sync_committee _) _) eqn:Hlast; [discriminate|].
    rewrite delegate_run.
    destruct (honest_sync_committee k v) as [[a0|x] w]; [|discriminate].
    intros [= <- <-].
    apply py_eq_false in Hlast.
    repeat split; try assumption; [discriminate|]. apply Hgate. assumption.
  - rewrite propose_unfold. unfold duty_lookup, py_mod.
    destruct (Z.eqb_spec SLOTS_PER_EPOCH 0) as [HS | HS]; [discriminate|].
    destruct (py_getitem _ _) as [duty|x] eqn:Hget; [|discriminate].
    destruct duty; simpl; [|discriminate].
    destruct (py_eq (last_slot_proposed _) _) eqn:Hlast; [discriminate|].
    rewrite delegate_run.
    destruct (honest_propose k v) as [[a0|x] w]; [|discriminate].
    intros [= <- <-].
    apply py_eq_false in Hlast. repeat split; assumption.
Qed.

(** X9.  The slashing guard does not outlive the slot.  A validator whose
    slashing-protection field is still empty, or holds an earlier slot, and
    whose other guards let the call through, reaches its producer: after
    the slot has advanced, a duty discharged in an earlier slot no longer
    holds the method back. *)
Theorem eligible_again_after_rollover (k : KnownItems) (v : BRValidator)
  (last : option Z) :
  last = None \/ (exists n, last = Some n /\ n < slot (data v)) ->
  (attest_due SECONDS_PER_SLOT v = true ->
   last_slot_attested (data v) = last ->
   attest' k v = delegate (honest_attest k) v) /\
  (sync_committees_due SECONDS_PER_SLOT v = true ->
   last_slot_sync_committee (data v) = last ->
   sync_committees' k v = delegate (honest_sync_committee k) v) /\
  (propose_due SLOTS_PER_EPOCH v = true ->
   last_slot_proposed (data v) = last ->
   propose' k v = delegate (honest_propose k) v).
Proof.
  intros Hlast.
  assert (Hne : py_eq last (slot (data v)) = false).
  { destruct Hlast as [-> | (n & -> & Hn)]; [reflexivity|].
    simpl. apply Z.eqb_neq. lia. }
  split; [|split]; intros Hdue Heq.
  - rewrite attest_when_due by assumption. rewrite Heq, Hne. reflexivity.
  - rewrite sync_committees_when_due by assumption.
    rewrite Heq, Hne. reflexivity.
  - rewrite propose_when_due by assumption. rewrite Heq, Hne. reflexivity.
Qed.

(** X10.  The proposer table is read at the index of the slot within the
    epoch, so a table left in place answers the same a whole number of
    epochs later: a validator that proposed in its slot, asked again in the
    slot of the same index of another epoch with the same table, proposes
    again, while in the slot it proposed in it gets [None]. *)
Theorem stale_proposer_table_repeats (k : KnownItems) (v : BRValidator) (n : Z) :
  SLOTS_PER_EPOCH <> 0 ->
  n <> 0 ->
  duty_lookup SLOTS_PER_EPOCH (data v) = Return true ->
  last_slot_proposed (data v) = Some (slot (data v)) ->
  propose' k v = (Return None, v) /\
  propose' k (set_slot v (slot (data v) + n * SLOTS_PER_EPOCH))
  = delegate (honest_propose k)
             (set_slot v (slot (data v) + n * SLOTS_PER_EPOCH)).
Proof.
  intros HS Hn Hduty Hlast. split.
  - rewrite propose_unfold, Hduty. apply py_eq_true in Hlast.
    rewrite Hlast. reflexivity.
  - rewrite propose_unfold.
    assert (Hsame : duty_lookup SLOTS_PER_EPOCH
                      (data (set_slot v (slot (data v) + n * SLOTS_PER_EPOCH)))
                    = Return true).
    { rewrite <- Hduty. unfold duty_lookup, set_slot. cbn [data slot
        current_proposer_duties].
      rewrite !py_mod_nonzero by assumption.
      rewrite Z.mod_add by assumption. reflexivity. }
    rewrite Hsame. cbn [negb].
    unfold set_slot at 1 2. cbn [data slot last_slot_proposed].
    rewrite Hlast. simpl.
    destruct (Z.eqb_spec (slot (data v))
                (slot (data v) + n * SLOTS_PER_EPOCH)) as [E | E];
      [|reflexivity].
    exfalso. assert (H : n * SLOTS_PER_EPOCH = 0) by lia.
    apply Z.mul_eq_0 in H. destruct H as [H | H]; [exact (Hn H) | exact (HS H)].
Qed.

(** X11.  Each method consults its own slashing-protection field only:
    whether [attest] answers [None] does not change when
    [last_slot_proposed] or [last_slot_sync_committee] is overwritten, and
    the same holds for [sync_committees] and [propose] with the fields of
    the two other duties. *)
Theorem decisions_read_own_field (k : KnownItems) (v : BRValidator)
  (s : option Z) :
  ((fst (attest' k (set_last_slot_proposed v s)) = Return None
    <-> fst (attest' k v) = Return None) /\
   (fst (attest' k (set_last_slot_sync_committee v s)) = Return None
    <-> fst (attest' k v) = Return None)) /\
  ((fst (sync_committees' k (set_last_slot_attested v s)) = Return None
    <-> fst (sync_committees' k v) = Return None) /\
   (fst (sync_committees' k (set_last_slot_proposed v s)) = Return None
    <-> fst (sync_committees' k v) = Return None)) /\
  ((fst (propose' k (set_last_slot_attested v s)) = Return None
    <-> fst (propose' k v) = Return None) /\
   (fst (propose' k (set_last_slot_sync_committee v s)) = Return None
    <-> fst (propose' k v) = Return None)).
Proof.
  rewrite !attest_none_iff, !sync_committees_none_iff, !propose_none_iff.
  repeat split; intros H; exact H.
Qed.

(** X12.  Zero constants.  With a [SECONDS_PER_SLOT] of zero, [attest]
    ends with [ZeroDivisionError] in the attesting slot and answers [None]
    in any other, and [sync_committees] does the same by committee
    membership; with a [SLOTS_PER_EPOCH] of zero [propose] always ends with
    [ZeroDivisionError].  The slashing-protection fields are not consulted,
    no producer is reached and the validator is untouched. *)
Theorem zero_constants (k : KnownItems) (v : BRValidator) :
  attest 0 honest_attest k v
  = (if py_eq (current_attest_slot (data v)) (slot (data v))
     then (Raise ZeroDivisionError, v) else (Return None, v)) /\
  sync_committees 0 honest_sync_committee k v
  = (match current_sync_committee (data v) with
     | [] => (Return None, v)
     | _ :: _ => (Raise ZeroDivisionError, v)
     end) /\
  propose 0 honest_propose k v = (Raise ZeroDivisionError, v).
Proof.
  rewrite attest_unfold, sync_committees_unfold, propose_unfold.
  repeat split.
  - destruct (py_eq _ _); reflexivity.
  - destruct (current_sync_committee (data v)); reflexivity.
Qed.

Lemma remainder_advances (a delta : Z) :
  0 < SECONDS_PER_SLOT ->
  0 <= delta ->
  a mod SECONDS_PER_SLOT + delta < SECONDS_PER_SLOT ->
  (a + delta) mod SECONDS_PER_SLOT = a mod SECONDS_PER_SLOT + delta.
Proof.
  intros HS Hd Hlt.
  pose proof (Z.mod_pos_bound a SECONDS_PER_SLOT HS) as Hb.
  rewrite (Z.div_mod a SECONDS_PER_SLOT) at 1 by lia.
  replace (SECONDS_PER_SLOT * (a / SECONDS_PER_SLOT)
           + a mod SECONDS_PER_SLOT + delta)
    with (a mod SECONDS_PER_SLOT + delta
          + (a / SECONDS_PER_SLOT) * SECONDS_PER_SLOT) by ring.
  rewrite Z.mod_add by lia. apply Z.mod_small. lia.
Qed.

(** X13.  Within a slot the gate does not close again: with a positive
    [SECONDS_PER_SLOT], if [attest] (or [sync_committees]) does not answer
    [None] at some reading of the clock, it does not answer [None] at any
    later reading of the same slot either, everything else unchanged. *)
Theorem gate_stays_open_within_slot (k : KnownItems) (v : BRValidator)
  (rb : bool) (t g delta : Z) :
  0 < SECONDS_PER_SLOT ->
  0 <= delta ->
  (t - g) mod SECONDS_PER_SLOT + delta < SECONDS_PER_SLOT ->
  (fst (attest' k (set_clock v rb t g)) <> Return None ->
   fst (attest' k (set_clock v rb (t + delta) g)) <> Return None) /\
  (fst (sync_committees' k (set_clock v rb t g)) <> Return None ->
   fst (sync_committees' k (set_clock v rb (t + delta) g)) <> Return None).
Proof.
  intros HS Hd Hlt.
  assert (Hrem : (t + delta - g) mod SECONDS_PER_SLOT
                 = (t - g) mod SECONDS_PER_SLOT + delta).
  { replace (t + delta - g) with (t - g + delta) by ring.
    apply remainder_advances; assumption. }
  assert (Hgate : forall b : bool,
            negb rb && ((t + delta - g) mod SECONDS_PER_SLOT <? 4) || b = true ->
            negb rb && ((t - g) mod SECONDS_PER_SLOT <? 4) || b = true).
  { intros b H. destruct b; [apply orb_true_r|].
    rewrite orb_false_r in H. rewrite orb_false_r.
    apply andb_true_iff in H as [H1 H2].
    apply andb_true_iff. split; [assumption|].
    apply Z.ltb_lt in H2. apply Z.ltb_lt. lia. }
  rewrite !attest_none_iff, !sync_committees_none_iff.
  unfold attest_declines, sync_committees_declines, set_clock, time_in_slot.
  cbn [data store slot current_attest_slot current_sync_committee
       received_block last_slot_attested last_slot_sync_committee time
       genesis_time].
  rewrite !py_mod_nonzero by lia.
  split; intros Hopen Hclosed; apply Hopen;
    apply orb_true_iff in Hclosed as [Hduty | Hrest];
    apply orb_true_iff; [left | right | left | right];
    try assumption; apply Hgate; assumption.
Qed.

End Scheduler.

(** ** The scheduler at the concrete validator *)

Lemma none_leaves_validator_untouched_witness :
  fst (attest 12 (Producers.honest_attest sample_attestation) true
         (sample_validator false 3 None)) = Return None /\
  snd (attest 12 (Producers.honest_attest sample_attestation) true
         (sample_validator false 3 None)) = sample_validator false 3 None.
Proof.
  split; [reflexivity|].
  apply (proj1 (none_leaves_validator_untouched 12 4
                  (Producers.honest_attest sample_attestation)
                  (Producers.honest_sync_committee sample_sync_bundle)
                  (Producers.honest_propose sample_block)
                  true (sample_validator false 3 None))).
  reflexivity.
Defined.

Lemma exceptions_accounted_for_witness :
  propose 32 (Producers.honest_propose sample_block) true
          (short_duty_validator 1)
  = (Raise IndexError, short_duty_validator 1) /\
  ((IndexError = ZeroDivisionError /\ 32 = 0 /\
    short_duty_validator 1 = short_duty_validator 1) \/
   (IndexError = IndexError /\ 32 <> 0 /\
    py_getitem (current_proposer_duties (data (short_duty_validator 1)))
               (slot (data (short_duty_validator 1)) mod 32)
    = Raise IndexError /\
    short_duty_validator 1 = short_duty_validator 1) \/
   Producers.honest_propose sample_block true (short_duty_validator 1)
   = (Raise IndexError, short_duty_validator 1)).
Proof.
  split; [reflexivity|].
  apply (proj2 (proj2 (exceptions_accounted_for 12 32
                         (Producers.honest_attest sample_attestation)
                         (Producers.honest_sync_committee sample_sync_bundle)
                         (Producers.honest_propose sample_block)
                         true (short_duty_validator 1)))).
  reflexivity.
Defined.

Lemma timing_gate_four_seconds_witness :
  12 <> 0 /\
  received_block (data (sample_validator false 3 None)) = false /\
  (time (store (sample_validator false 3 None))
   - genesis_time (store (sample_validator false 3 None))) mod 12 < 4 /\
  attest 12 (Producers.honest_attest sample_attestation) true
         (sample_validator false 3 None)
  = (Return None, sample_validator false 3 None) /\
  sync_committees 12 (Producers.honest_sync_committee sample_sync_bundle) true
         (sample_validator false 3 None)
  = (Return None, sample_validator false 3 None).
Proof.
  assert (H12 : 12 <> 0) by discriminate.
  assert (Hrb : received_block (data (sample_validator false 3 None)) = false)
    by reflexivity.
  assert (Ht : (time (store (sample_validator false 3 None))
                - genesis_time (store (sample_validator false 3 None))) mod 12
               < 4) by reflexivity.
  split; [exact H12|]. split; [exact Hrb|]. split; [exact Ht|].
  exact (timing_gate_four_seconds 12
           (Producers.honest_attest sample_attestation)
           (Producers.honest_sync_committee sample_sync_bundle)
           true (sample_validator false 3 None) H12 Hrb Ht).
Defined.

Lemma short_slots_wait_for_block_witness :
  4 <> 0 /\ 4 <= 4 /\
  received_block (data (sample_validator false 3 None)) = false /\
  attest 4 (Producers.honest_attest sample_attestation) true
         (sample_validator false 3 None)
  = (Return None, sample_validator false 3 None) /\
  sync_committees 4 (Producers.honest_sync_committee sample_sync_bundle) true
         (sample_validator false 3 None)
  = (Return None, sample_validator false 3 None).
Proof.
  assert (H4 : 4 <> 0) by discriminate.
  assert (Hle : 4 <= 4) by discriminate.
  split; [exact H4|]. split; [exact Hle|]. split; [reflexivity|].
  exact (short_slots_wait_for_block 4
           (Producers.honest_attest sample_attestation)
           (Producers.honest_sync_committee sample_sync_bundle)
           true (sample_validator false 3 None) H4 Hle eq_refl).
Defined.

Lemma block_received_fast_path_witness :
  12 <> 0 /\
  received_block (data (sample_validator true 0 None)) = true /\
  attest 12 (Producers.honest_attest sample_attestation) true
         (sample_validator true 0 None)
  = (Return (Some 5), sample_validator true 0 None) /\
  sync_committees 12 (Producers.honest_sync_committee sample_sync_bundle) true
         (sample_validator true 0 None)
  = (Return (Some [3; 7]), sample_validator true 0 None).
Proof.
  assert (H12 : 12 <> 0) by discriminate.
  destruct (block_received_fast_path 12
              (Producers.honest_attest sample_attestation)
              (Producers.honest_sync_committee sample_sync_bundle)
              true (sample_validator true 0 None) H12 eq_refl) as [Ha Hs].
  split; [exact H12|]. split; [reflexivity|]. split.
  - rewrite Ha; [reflexivity|reflexivity|discriminate].
  - rewrite Hs; [reflexivity|discriminate|discriminate].
Defined.

Lemma attest_and_sync_open_together_witness :
  current_attest_slot (data (sample_validator false 4 None)) = Some 5 /\
  current_sync_committee (data (sample_validator false 4 None)) <> [] /\
  last_slot_attested (data (sample_validator false 4 None)) <> Some 5 /\
  last_slot_sync_committee (data (sample_validator false 4 None)) <> Some 5 /\
  attest 12 (Producers.honest_attest sample_attestation) true
         (sample_validator false 4 None)
  = (Return (Some 5), sample_validator false 4 None) /\
  sync_committees 12 (Producers.honest_sync_committee sample_sync_bundle) true
         (sample_validator false 4 None)
  = (Return (Some [3; 7]), sample_validator false 4 None).
Proof.
  assert (Hm : current_sync_committee (data (sample_validator false 4 None))
               <> []) by discriminate.
  assert (Hla : last_slot_attested (data (sample_validator false 4 None))
                <> Some 5) by discriminate.
  assert (Hls : last_slot_sync_committee (data (sample_validator false 4 None))
                <> Some 5) by discriminate.
  split; [reflexivity|]. split; [exact Hm|]. split; [exact Hla|].
  split; [exact Hls|].
  destruct (attest_and_sync_open_together 12
              (Producers.honest_attest sample_attestation)
              (Producers.honest_sync_committee sample_sync_bundle)
              true (sample_validator false 4 None) eq_refl Hm Hla Hls)
    as [[Ha Hs] | [[Ha Hs] | [Ha Hs]]].
  - discriminate Ha.
  - discriminate Ha.
  - split; reflexivity.
Defined.

Lemma artifact_only_when_due_witness :
  attest 12 (Producers.honest_attest sample_attestation) true
         (sample_validator false 4 None)
  = (Return (Some 5), sample_validator false 4 None) /\
  (received_block (data (sample_validator false 4 None)) = true \/
   4 <= (time (store (sample_validator false 4 None))
         - genesis_time (store (sample_validator false 4 None))) mod 12) /\
  Producers.honest_attest sample_attestation true
    (sample_validator false 4 None)
  = (Return 5, sample_validator false 4 None).
Proof.
  split; [reflexivity|].
  destruct (proj1 (artifact_only_when_due 12 4
                     (Producers.honest_attest sample_attestation)
                     (Producers.honest_sync_committee sample_sync_bundle)
                     (Producers.honest_propose sample_block)
                     true (sample_validator false 4 None))
              5 (sample_validator false 4 None) eq_refl)
    as (_ & _ & _ & Hgate & Hprod).
  split; [exact Hgate | exact Hprod].
Defined.

Lemma eligible_again_after_rollover_witness :
  (Some 4 = None \/
   exists n, Some 4 = Some n /\
             n < slot (data (sample_validator true 0 (Some 4)))) /\
  attest 12 (Producers.honest_attest sample_attestation) true
         (sample_validator true 0 (Some 4))
  = (Return (Some 5), sample_validator true 0 (Some 4)).
Proof.
  assert (Hlast : Some 4 = None \/
                  exists n, Some 4 = Some n /\
                            n < slot (data (sample_validator true 0 (Some 4)))).
  { right. exists 4. split; reflexivity. }
  split; [exact Hlast|].
  destruct (eligible_again_after_rollover 12 4
              (Producers.honest_attest sample_attestation)
              (Producers.honest_sync_committee sample_sync_bundle)
              (Producers.honest_propose sample_block)
              true (sample_validator true 0 (Some 4)) (Some 4) Hlast)
    as (Ha & _ & _).
  rewrite Ha; reflexivity.
Defined.

Lemma stale_proposer_table_repeats_witness :
  4 <> 0 /\ 1 <> 0 /\
  duty_lookup 4 (data (sample_validator false 0 (Some 5))) = Return true /\
  last_slot_proposed (data (sample_validator false 0 (Some 5))) = Some 5 /\
  propose 4 (Producers.honest_propose sample_block) true
          (sample_validator false 0 (Some 5))
  = (Return None, sample_validator false 0 (Some 5)) /\
  propose 4 (Producers.honest_propose sample_block) true
          (set_slot (sample_validator false 0 (Some 5)) 9)
  = (Return (Some 9), set_slot (sample_validator false 0 (Some 5)) 9).
Proof.
  assert (H4 : 4 <> 0) by discriminate.
  assert (H1 : 1 <> 0) by discriminate.
  destruct (stale_proposer_table_repeats 4
              (Producers.honest_propose sample_block)
              true (sample_validator false 0 (Some 5)) 1 H4 H1
              eq_refl eq_refl) as [Hnow Hlater].
  split; [exact H4|]. split; [exact H1|]. split; [reflexivity|].
  split; [reflexivity|]. split; [exact Hnow|].
  change (set_slot (sample_validator false 0 (Some 5)) 9)
    with (set_slot (sample_validator false 0 (Some 5))
            (slot (data (sample_validator false 0 (Some 5))) + 1 * 4)).
  rewrite Hlater. reflexivity.
Defined.

Lemma gate_stays_open_within_slot_witness :
  0 < 12 /\ 0 <= 3 /\ (4 - 0) mod 12 + 3 < 12 /\
  fst (attest 12 (Producers.honest_attest sample_attestation) true
         (set_clock (sample_validator false 4 None) false (4 + 3) 0))
  <> Return None.
Proof.
  assert (H12 : 0 < 12) by reflexivity.
  assert (H3 : 0 <= 3) by discriminate.
  assert (Hlt : (4 - 0) mod 12 + 3 < 12) by reflexivity.
  split; [exact H12|]. split; [exact H3|]. split; [exact Hlt|].
  apply (proj1 (gate_stays_open_within_slot 12
                  (Producers.honest_attest sample_attestation)
                  (Producers.honest_sync_committee sample_sync_bundle)
                  true (sample_validator false 4 None) false 4 0 3
                  H12 H3 Hlt)).
  discriminate.
Defined.
